(** * Realtime-Flood-Monitoring-API: the caching proxy of the backend

    A shallow embedding of [backend/config.py], [backend/app/services/ea_service.py]
    and [backend/app/api/routes.py], and the properties of the cache, of the
    cache key and of the shaping of the readings parameters.

    Conventions of the embedding.
    - A Python [str] is a Rocq [string], the bytes of its UTF-8 encoding.
      [repr] reads the characters back from the bytes and consults the
      Unicode table of the interpreter, which is left open ([Py.Unicode]).
    - A Python [dict] from [str] to [str] (the query parameters) is an
      association list in insertion order: [str(params)] prints the items in
      that order, so the order is part of the value.
    - The module-level [cache] dict is only looked up and assigned by key: it
      is a [gmap] from the key to the pair (time of insertion, data).
    - [time.time()] is an integer count of microseconds; a timeout is a whole
      number of seconds.  Floating-point rounding of the clock is left out.
    - [datetime.now()] is the local wall-clock time: the clock moved by the
      offset from UTC that the time zone has at that instant, which changes
      when daylight saving time begins or ends.
    - The functions run in a state-and-exception monad over [World]: the
      clock, the cache, the heap of parameter dicts that are mutated in
      place, and the log of the GET requests sent upstream. *)

From Stdlib Require Import ZArith Ascii String List Lia Bool.
From stdpp Require Import base option gmap strings list fin_maps.

Local Open Scope Z_scope.
Local Set Warnings "-register-all".

(** ** Python values and built-ins *)

Module Py.

(** The exceptions the modelled code can raise. *)
Inductive exn : Type :=
  | HTTPError (status_code : Z)
  | JSONDecodeError
  | ConnectionError
  | AttributeError
  | TypeError
  | KeyError
  | IndexError.

(** The value decoded by [response.json()]. A float is given by a rational
    [num / den]; NaN and the infinities are left out. *)
Inductive json : Type :=
  | JNull
  | JBool (b : bool)
  | JInt (n : Z)
  | JFloat (num : Z) (den : positive)
  | JStr (s : string)
  | JList (items : list json)
  | JDict (items : list (string * json)).

(** A [dict] with [str] keys, in insertion order. *)
Abbreviation dict V := (list (string * V)).

(** [d.get(k)], with [None] for Python's [None]. *)
Fixpoint dict_get {V} (k : string) (d : dict V) : option V :=
  match d with
  | [] => None
  | (k', v) :: d' => if String.eqb k k' then Some v else dict_get k d'
  end.

(** [d[k] = v]: an existing key keeps its place, a new key goes last. *)
Fixpoint dict_set {V} (k : string) (v : V) (d : dict V) : dict V :=
  match d with
  | [] => [(k, v)]
  | (k', v') :: d' =>
      if String.eqb k k' then (k', v) :: d' else (k', v') :: dict_set k v d'
  end.

Definition keys {V} (d : dict V) : list string := map fst d.

(** Truth value of a [str], and of the result of [d.get(k)] on such a dict. *)
Definition truthy_str (s : string) : bool :=
  match s with EmptyString => false | String _ _ => true end.

Definition truthy_get (o : option string) : bool :=
  match o with None => false | Some s => truthy_str s end.

(** Truth value of a decoded JSON value ([bool(x)]). *)
Definition truthy (x : json) : bool :=
  match x with
  | JNull => false
  | JBool b => b
  | JInt n => negb (n =? 0)
  | JFloat n _ => negb (n =? 0)
  | JStr s => truthy_str s
  | JList l => match l with [] => false | _ :: _ => true end
  | JDict l => match l with [] => false | _ :: _ => true end
  end.

(** *** [repr] of a [str] and [str] of the parameters *)

Definition squote : ascii := "039"%char.
Definition dquote : ascii := "034"%char.
Definition backslash : ascii := "092"%char.

Fixpoint contains (c : ascii) (s : string) : bool :=
  match s with
  | EmptyString => false
  | String c' s' => Ascii.eqb c c' || contains c s'
  end.

(** The quote [repr] chooses: double quotes only when the string has a
    single quote and no double quote. *)
Definition quote_of (s : string) : ascii :=
  if contains squote s && negb (contains dquote s) then dquote else squote.

Definition hex_digit (n : N) : ascii :=
  ascii_of_N (if (n <? 10)%N then 48 + n else 87 + n)%N.

(** One character below 128 inside the quotes: the quote and the backslash
    are escaped, tab, newline and carriage return have their letter, the
    other control characters and DEL are written [\xNN], every other one
    stands for itself. *)
Definition escape_char (quote c : ascii) : string :=
  let n := N_of_ascii c in
  if Ascii.eqb c quote || Ascii.eqb c backslash then String backslash (String c EmptyString)
  else if (n =? 9)%N then String backslash (String "t" EmptyString)
  else if (n =? 10)%N then String backslash (String "n" EmptyString)
  else if (n =? 13)%N then String backslash (String "r" EmptyString)
  else if (n <? 32)%N || (n =? 127)%N then
    String backslash (String "x"
      (String (hex_digit (n / 16)) (String (hex_digit (n mod 16)) EmptyString)))
  else String c EmptyString.

(** The low six bits of a continuation byte of UTF-8. *)
Definition continuation_bits (c : ascii) : option N :=
  let n := N_of_ascii c in
  if ((128 <=? n) && (n <? 192))%N then Some (n - 128)%N else None.

(** The character that starts with the byte [c] followed by [s]: the number
    of bytes after [c] that belong to it and its code point, when [c] and
    those bytes are a well-formed sequence of two to four bytes. A lone
    surrogate, which a [str] may hold, is read from its three bytes. *)
Definition utf8_head (c : ascii) (s : string) : option (nat * N) :=
  let n := N_of_ascii c in
  if (n <? 194)%N then None
  else if (n <? 224)%N then
    match s with
    | String c1 _ =>
        match continuation_bits c1 with
        | Some x1 => Some (1%nat, ((n - 192) * 64 + x1)%N)
        | None => None
        end
    | _ => None
    end
  else if (n <? 240)%N then
    match s with
    | String c1 (String c2 _) =>
        match continuation_bits c1, continuation_bits c2 with
        | Some x1, Some x2 =>
            let cp := ((n - 224) * 4096 + x1 * 64 + x2)%N in
            if (2048 <=? cp)%N then Some (2%nat, cp) else None
        | _, _ => None
        end
    | _ => None
    end
  else if (n <? 245)%N then
    match s with
    | String c1 (String c2 (String c3 _)) =>
        match continuation_bits c1, continuation_bits c2, continuation_bits c3 with
        | Some x1, Some x2, Some x3 =>
            let cp := ((n - 240) * 262144 + x1 * 4096 + x2 * 64 + x3)%N in
            if ((65536 <=? cp) && (cp <? 1114112))%N then Some (3%nat, cp) else None
        | _, _, _ => None
        end
    | _ => None
    end
  else None.

(** The bytes of a code point. *)
Definition utf8_encode (cp : N) : string :=
  if (cp <? 128)%N then String (ascii_of_N cp) EmptyString
  else if (cp <? 2048)%N then
    String (ascii_of_N (192 + cp / 64))
      (String (ascii_of_N (128 + cp mod 64)) EmptyString)
  else if (cp <? 65536)%N then
    String (ascii_of_N (224 + cp / 4096))
      (String (ascii_of_N (128 + (cp / 64) mod 64))
         (String (ascii_of_N (128 + cp mod 64)) EmptyString))
  else
    String (ascii_of_N (240 + cp / 262144))
      (String (ascii_of_N (128 + (cp / 4096) mod 64))
         (String (ascii_of_N (128 + (cp / 64) mod 64))
            (String (ascii_of_N (128 + cp mod 64)) EmptyString))).

(** [n] in hexadecimal on [width] digits. *)
Fixpoint hex_digits (width : nat) (n : N) : string :=
  match width with
  | O => EmptyString
  | S w => hex_digits w (n / 16) +:+ String (hex_digit (n mod 16)) EmptyString
  end.

(** The escape of a character from 128 on that is not printable: [\xNN]
    below 256, [\uNNNN] below 65536, [\UNNNNNNNN] from there. *)
Definition escape_code (cp : N) : string :=
  String backslash
    (if (cp <? 256)%N then String "x" (hex_digits 2 cp)
     else if (cp <? 65536)%N then String "u" (hex_digits 4 cp)
     else String "U" (hex_digits 8 cp)).

(** The Unicode database of the interpreter, as far as [repr] consults it:
    whether the character of a code point is printable ([str.isprintable]).
    The table changes with the version of Python, and the code does not
    depend on one: the properties below hold for every table. *)
Class Unicode := isprintable : N -> bool.

Section Repr.

Context {unicode : Unicode}.

(** What [repr] writes for the character that starts with the byte [c],
    and the number of bytes after [c] that it has consumed. Below 128 the
    rules of [escape_char] apply; from 128 on a printable character is
    copied and any other is escaped by its code point. Bytes that are not the
    encoding of a character, which no [str] gives, are copied. *)
Definition escape_step (quote c : ascii) (rest : string) : string * nat :=
  if (N_of_ascii c <? 128)%N then (escape_char quote c, O)
  else
    match utf8_head c rest with
    | Some (k, cp) =>
        if isprintable cp then (String c EmptyString, O) else (escape_code cp, k)
    | None => (String c EmptyString, O)
    end.

(** The inside of the quotes for [s], its first [skip] bytes left out. *)
Fixpoint escape_from (skip : nat) (quote : ascii) (s : string) : string :=
  match s with
  | EmptyString => EmptyString
  | String c s' =>
      match skip with
      | S k => escape_from k quote s'
      | O =>
          let '(text, k) := escape_step quote c s' in
          text +:+ escape_from k quote s'
      end
  end.

Definition escape (quote : ascii) (s : string) : string := escape_from 0 quote s.

Definition repr (s : string) : string :=
  let q := quote_of s in
  String q (escape q s +:+ String q EmptyString).

(** The items of a dict between the braces, up to and with the closing
    brace: [repr(k): repr(v)] joined by a comma and a space. *)
Fixpoint str_items (d : dict string) : string :=
  match d with
  | [] => "}"
  | (k, v) :: d' =>
      repr k +:+ ": " +:+ repr v +:+
      match d' with [] => "}" | _ :: _ => ", " +:+ str_items d' end
  end.

(** [str(params)] for [params] either [None] or a dict. *)
Definition str_params (params : option (dict string)) : string :=
  match params with
  | None => "None"
  | Some d => "{" +:+ str_items d
  end.

End Repr.

(** Reading a quoted string back, used to show that [repr] loses nothing:
    the text up to the closing quote with the escapes undone, and what
    follows the quote. *)
Definition hex_value (c : ascii) : N :=
  let n := N_of_ascii c in if (n <? 58)%N then (n - 48)%N else (n - 87)%N.

Definition unescape_letter (e : ascii) : ascii :=
  if Ascii.eqb e "t" then "009"%char
  else if Ascii.eqb e "n" then "010"%char
  else if Ascii.eqb e "r" then "013"%char
  else e.

Definition push (c : ascii) (r : option (string * string)) : option (string * string) :=
  match r with
  | Some (s, rest) => Some (String c s, rest)
  | None => None
  end.

Definition push_code (cp : N) (r : option (string * string)) : option (string * string) :=
  match r with
  | Some (s, rest) => Some (utf8_encode cp +:+ s, rest)
  | None => None
  end.

Definition hex2 (a b : ascii) : N := (16 * hex_value a + hex_value b)%N.

Fixpoint unescape (quote : ascii) (s : string) : option (string * string) :=
  match s with
  | EmptyString => None
  | String c s1 =>
      if Ascii.eqb c quote then Some (EmptyString, s1)
      else if Ascii.eqb c backslash then
        match s1 with
        | EmptyString => None
        | String e s2 =>
            if Ascii.eqb e "x" then
              match s2 with
              | String h1 (String h2 s3) => push_code (hex2 h1 h2) (unescape quote s3)
              | _ => None
              end
            else if Ascii.eqb e "u" then
              match s2 with
              | String h1 (String h2 (String h3 (String h4 s3))) =>
                  push_code (256 * hex2 h1 h2 + hex2 h3 h4) (unescape quote s3)
              | _ => None
              end
            else if Ascii.eqb e "U" then
              match s2 with
              | String h1 (String h2 (String h3 (String h4
                  (String h5 (String h6 (String h7 (String h8 s3))))))) =>
                  push_code (16777216 * hex2 h1 h2 + 65536 * hex2 h3 h4 +
                             256 * hex2 h5 h6 + hex2 h7 h8)
                    (unescape quote s3)
              | _ => None
              end
            else push (unescape_letter e) (unescape quote s2)
        end
      else push c (unescape quote s1)
  end.

Definition unrepr (s : string) : option (string * string) :=
  match s with
  | String q s' =>
      if Ascii.eqb q squote || Ascii.eqb q dquote then unescape q s' else None
  | EmptyString => None
  end.

(** [s] without its first [k] bytes. *)
Fixpoint string_drop (k : nat) (s : string) : string :=
  match k, s with
  | O, _ => s
  | S k', String _ s' => string_drop k' s'
  | S _, EmptyString => EmptyString
  end.

(** Every byte of [s] is below 128. *)
Fixpoint is_ascii (s : string) : bool :=
  match s with
  | EmptyString => true
  | String c s' => (N_of_ascii c <? 128)%N && is_ascii s'
  end.

End Py.

(** ** The part of [datetime] the service uses

    A naive [datetime] is the count of microseconds of local wall-clock time
    since 1970-01-01T00:00:00; [isoformat] follows the proleptic Gregorian
    calendar of the standard library (years 1 to 9999, where [datetime]
    lives). *)

Module Datetime.

Definition datetime := Z.

Definition timedelta_hours (h : Z) : Z := h * 3600 * 1000000.

Definition days_in_month (leap : bool) (month : Z) : Z :=
  match month with
  | 2 => if leap then 29 else 28
  | 4 | 6 | 9 | 11 => 30
  | _ => 31
  end.

Definition days_before_month (leap : bool) (month : Z) : Z :=
  fold_right Z.add 0 (map (days_in_month leap) (map Z.of_nat (seq 1 (Z.to_nat (month - 1))))).

(** Year, month and day of the ordinal [n], where day 1 is 0001-01-01. *)
Definition ord2ymd (n : Z) : Z * Z * Z :=
  let n := n - 1 in
  let n400 := n / 146097 in
  let n := n mod 146097 in
  let n100 := n / 36524 in
  let n := n mod 36524 in
  let n4 := n / 1461 in
  let n := n mod 1461 in
  let n1 := n / 365 in
  let n := n mod 365 in
  let year := n400 * 400 + 1 + n100 * 100 + n4 * 4 + n1 in
  if (n1 =? 4) || (n100 =? 4) then (year - 1, 12, 31)
  else
    let leapyear := (n1 =? 3) && (negb (n4 =? 24) || (n100 =? 3)) in
    let month := Z.shiftr (n + 50) 5 in
    let preceding := days_before_month leapyear month in
    if n <? preceding
    then (year, month - 1, n - (preceding - days_in_month leapyear (month - 1)) + 1)
    else (year, month, n - preceding + 1).

(** The ordinal of 1970-01-01. *)
Definition epoch_ordinal : Z := 719163.

(** [n] in decimal on [width] digits, zero-padded. *)
Fixpoint pad (width : nat) (n : Z) : string :=
  match width with
  | O => EmptyString
  | S w => pad w (n / 10) +:+ String (ascii_of_N (48 + Z.to_N (n mod 10))) EmptyString
  end.

(** [dt.isoformat()]: the microseconds are printed only when not zero. *)
Definition isoformat (dt : datetime) : string :=
  let us := dt mod 1000000 in
  let secs := dt / 1000000 in
  let sod := secs mod 86400 in
  let '(y, m, d) := ord2ymd (secs / 86400 + epoch_ordinal) in
  pad 4 y +:+ "-" +:+ pad 2 m +:+ "-" +:+ pad 2 d +:+ "T" +:+
  pad 2 (sod / 3600) +:+ ":" +:+ pad 2 (sod / 60 mod 60) +:+ ":" +:+ pad 2 (sod mod 60) +:+
  (if us =? 0 then EmptyString else "." +:+ pad 6 us).

End Datetime.

(** ** The world the service runs in *)

Module Runtime.
Import Py.

(** [backend/config.py]: the two settings the service reads. *)
Record Config := { API_BASE_URL : string; CACHE_TIMEOUT : Z }.

Definition Config_default : Config :=
  {| API_BASE_URL := "https://environment.data.gov.uk/flood-monitoring";
     CACHE_TIMEOUT := 300 |}.

(** A GET as [requests.get(url, params=params)] sends it. *)
Definition Request : Type := string * option (dict string).

(** What comes back: a status and a body, [None] when the body is not JSON. *)
Record Response := { status_code : Z; body : option json }.

(** The answer of the network to one GET: the time the exchange took, and
    the response, [None] when no response arrived. *)
Record Reply := { took : Z; outcome : option Response }.

(** The upstream API with the network in front of it: the reply to a request
    given the requests sent before it. *)
Definition Upstream : Type := list Request -> Request -> Reply.

(** A reference to a parameter dict on the heap. *)
Abbreviation loc := positive.

Record World := {
  clock : Z;                          (* time.time(), in microseconds *)
  cache : gmap string (Z * json);     (* the module-level cache *)
  heap : gmap loc (dict string);      (* the dicts that are mutated in place *)
  sent : list Request                 (* the GETs sent upstream, oldest first *)
}.

Definition set_clock (t : Z) (w : World) : World :=
  {| clock := t; cache := cache w; heap := heap w; sent := sent w |}.
Definition set_cache (c : gmap string (Z * json)) (w : World) : World :=
  {| clock := clock w; cache := c; heap := heap w; sent := sent w |}.
Definition set_heap (h : gmap loc (dict string)) (w : World) : World :=
  {| clock := clock w; cache := cache w; heap := h; sent := sent w |}.
Definition set_sent (l : list Request) (w : World) : World :=
  {| clock := clock w; cache := cache w; heap := heap w; sent := l |}.

(** Time passing between two calls. *)
Definition tick (d : Z) (w : World) : World := set_clock (clock w + d) w.

Inductive result (A : Type) : Type :=
  | Ok (a : A)
  | Raise (e : exn).
Arguments Ok {A} a.
Arguments Raise {A} e.

(** A computation: it returns or raises, and leaves a world behind. *)
Definition M (A : Type) : Type := World -> result A * World.

Definition ret {A} (a : A) : M A := fun w => (Ok a, w).
Definition raise {A} (e : exn) : M A := fun w => (Raise e, w).
Definition bind {A B} (m : M A) (f : A -> M B) : M B :=
  fun w => match m w with
           | (Ok a, w') => f a w'
           | (Raise e, w') => (Raise e, w')
           end.

Declare Scope py_scope.
Delimit Scope py_scope with py.
Notation "x <- m ; k" := (bind m (fun x => k))
  (at level 20, m at level 100, k at level 200, only parsing) : py_scope.
Local Open Scope py_scope.

(** [time.time()] *)
Definition time_time : M Z := fun w => (Ok (clock w), w).

(** [cache.get(key)]-like read standing for [key in cache] and [cache[key]]. *)
Definition cache_find (key : string) : M (option (Z * json)) :=
  fun w => (Ok (cache w !! key), w).

(** [cache[key] = entry] *)
Definition cache_assign (key : string) (entry : Z * json) : M unit :=
  fun w => (Ok tt, set_cache (<[key := entry]> (cache w)) w).

(** A new dict object holding [d]. *)
Definition new_dict (d : dict string) : M loc :=
  fun w => let l := fresh (dom (heap w)) in (Ok l, set_heap (<[l := d]> (heap w)) w).

(** The dict a reference points to. *)
Definition deref (l : loc) : M (dict string) :=
  fun w => (Ok (default [] (heap w !! l)), w).

(** [params[k] = v] on the object itself. *)
Definition setitem (l : loc) (k v : string) : M unit :=
  fun w => (Ok tt, set_heap (<[l := dict_set k v (default [] (heap w !! l))]> (heap w)) w).

Section Host.

(* The seconds east of UTC of the local time zone at an instant of the
   clock: the rules of the zone, daylight saving time included. *)
Variable utcoffset : Z -> Z.
Variable upstream : Upstream.

(** [datetime.now()]: the clock as naive local wall-clock time. *)
Definition datetime_now : M Datetime.datetime :=
  fun w => (Ok (clock w + utcoffset (clock w) * 1000000), w).

(** [requests.get(url, params=params)]: the request goes out, time passes,
    and the response comes back or [ConnectionError] is raised. *)
Definition requests_get (url : string) (params : option (dict string)) : M Response :=
  fun w =>
    let r := upstream (sent w) (url, params) in
    let w' := set_clock (clock w + took r) (set_sent (sent w ++ [(url, params)]) w) in
    match outcome r with
    | Some response => (Ok response, w')
    | None => (Raise ConnectionError, w')
    end.

End Host.

(** [response.raise_for_status()]: the 4xx and 5xx statuses raise. *)
Definition raise_for_status (response : Response) : M unit :=
  if (400 <=? status_code response) && (status_code response <? 600)
  then raise (HTTPError (status_code response))
  else ret tt.

(** [response.json()] *)
Definition response_json (response : Response) : M json :=
  match body response with
  | Some data => ret data
  | None => raise JSONDecodeError
  end.

End Runtime.

(** ** [backend/app/services/ea_service.py] *)

Module ea_service.
Import Py Runtime.
Local Open Scope py_scope.

Section Service.

Context {unicode : Unicode}.
Variable config : Config.      (* current_app.config *)
Variable utcoffset : Z -> Z.
Variable upstream : Upstream.

(** The cache key of a request: [f"{url}?{str(params)}"]. *)
Definition cache_key (url : string) (params : option (dict string)) : string :=
  url +:+ "?" +:+ str_params params.

(** The clock counts microseconds and [timeout] seconds, hence the factor in
    the test of freshness. [hit] is the cached data when the first [if] of
    the source returns it, and [None] when control falls through to the
    fetch. *)
Definition get_with_cache (url : string) (params : option (dict string))
    (timeout : option Z) : M json :=
  let timeout := match timeout with None => CACHE_TIMEOUT config | Some t => t end in
  let cache_key := cache_key url params in
  cached <- cache_find cache_key ;
  hit <- match cached with
         | Some (cached_time, cached_data) =>
             now <- time_time ;
             ret (if now - cached_time <? timeout * 1000000
                  then Some cached_data else None)
         | None => ret None
         end ;
  match hit with
  | Some cached_data => ret cached_data
  | None =>
      response <- requests_get upstream url params ;
      _ <- raise_for_status response ;
      data <- response_json response ;
      now <- time_time ;
      _ <- cache_assign cache_key (now, data) ;
      ret data
  end.

Definition get_stations (params : option (dict string)) : M json :=
  let base_url := API_BASE_URL config in
  let url := base_url +:+ "/id/stations" in
  get_with_cache url params None.

(** Whether the default [since] is needed: none of the three keys has a
    true value. *)
Definition needs_since (d : dict string) : bool :=
  negb (truthy_get (dict_get "today" d)) &&
  negb (truthy_get (dict_get "since" d)) &&
  negb (truthy_get (dict_get "date" d)).

Definition get_station_readings (station_id : string) (params : option loc) : M json :=
  let base_url := API_BASE_URL config in
  params <- match params with
            | None => new_dict []
            | Some p => ret p
            end ;
  d <- deref params ;
  _ <- (if needs_since d then
          now <- datetime_now utcoffset ;
          let yesterday := now - Datetime.timedelta_hours 24 in
          setitem params "since" (Datetime.isoformat yesterday)
        else ret tt) ;
  _ <- setitem params "_sorted" EmptyString ;
  let url := base_url +:+ "/id/stations/" +:+ station_id +:+ "/readings" in
  d <- deref params ;
  get_with_cache url (Some d) None.

End Service.

End ea_service.

(** ** [backend/app/api/routes.py] *)

Module routes.
Import Py Runtime ea_service.
Local Open Scope py_scope.

(** What a view returns to Flask: the JSON body and the HTTP status. *)
Definition View : Type := json * Z.

(** [jsonify(x)]: a 200 response with body [x]. *)
Definition jsonify (x : json) : View := (x, 200).

(** [request.args.to_dict()]: the first value of every key of the query
    string, the keys in the order they first occur. *)
Fixpoint to_dict (args : list (string * string)) : dict string :=
  match args with
  | [] => []
  | (k, v) :: args' =>
      (k, v) :: filter (fun kv => negb (String.eqb k (fst kv))) (to_dict args')
  end.

(** [x.get(k)] on a decoded value: only a dict has [get]. *)
Definition py_get (x : json) (k : string) : M json :=
  match x with
  | JDict d => ret (default JNull (dict_get k d))
  | _ => raise AttributeError
  end.

(** [x[k]] for a string key. *)
Definition getitem (x : json) (k : string) : M json :=
  match x with
  | JDict d => match dict_get k d with Some v => ret v | None => raise KeyError end
  | _ => raise TypeError
  end.

(** The bytes of the first character of a UTF-8 string. *)
Fixpoint continuation (s : string) : string :=
  match s with
  | String c s' =>
      if ((128 <=? N_of_ascii c) && (N_of_ascii c <? 192))%N
      then String c (continuation s') else EmptyString
  | EmptyString => EmptyString
  end.

Definition first_char (s : string) : string :=
  match s with
  | String c s' => String c (continuation s')
  | EmptyString => EmptyString
  end.

(** [x[0]] *)
Definition getitem0 (x : json) : M json :=
  match x with
  | JList (y :: _) => ret y
  | JList [] => raise IndexError
  | JStr (String c s) => ret (JStr (first_char (String c s)))
  | JStr EmptyString => raise IndexError
  | JDict _ => raise KeyError
  | JNull | JBool _ | JInt _ | JFloat _ _ => raise TypeError
  end.

Definition not_found : View :=
  (JDict [("error", JStr "Station not found")], 404).

Section Views.

Context {unicode : Unicode}.
Variable config : Config.
Variable utcoffset : Z -> Z.
Variable upstream : Upstream.

(** [GET /api/stations], with the items of the query string. *)
Definition stations (args : list (string * string)) : M View :=
  let params := to_dict args in
  stations_data <- get_stations config upstream (Some params) ;
  ret (jsonify stations_data).

(** [GET /api/stations/<station_id>] *)
Definition station (station_id : string) : M View :=
  stations_data <- get_stations config upstream (Some [("stationReference", station_id)]) ;
  items <- py_get stations_data "items" ;
  if truthy items then
    items <- getitem stations_data "items" ;
    first <- getitem0 items ;
    ret (jsonify first)
  else ret not_found.

(** [GET /api/stations/<station_id>/readings] *)
Definition readings (station_id : string) (args : list (string * string)) : M View :=
  params <- new_dict (to_dict args) ;
  readings_data <- get_station_readings config utcoffset upstream station_id (Some params) ;
  ret (jsonify readings_data).

End Views.

End routes.


(** ** Notions the properties are stated with *)

Module Spec.
Import Py Runtime ea_service.

(** The separator or the closing brace after an item of a printed dict. *)
Definition after_item {unicode : Unicode} (d : dict string) : string :=
  match d with [] => "}" | _ :: _ => ", " +:+ str_items d end.

(** The timeout in force for a call, in seconds. *)
Definition timeout_of (config : Config) (timeout : option Z) : Z :=
  match timeout with None => CACHE_TIMEOUT config | Some t => t end.

(** The data a lookup of [key] finds fresh in the world [w], if any. *)
Definition lookup_fresh (key : string) (ttl : Z) (w : World) : option json :=
  match cache w !! key with
  | Some (t, data) => if clock w - t <? ttl * 1000000 then Some data else None
  | None => None
  end.

(** No entry was stored later than the clock shows. *)
Definition cache_wf (w : World) : Prop :=
  forall key t data, cache w !! key = Some (t, data) -> t <= clock w.

(** A reply that carries one of the statuses [raise_for_status] rejects. *)
Definition http_error_reply (r : Reply) : Prop :=
  exists response, outcome r = Some response /\ 400 <= status_code response < 600.

(** A reply that carries [data]: a response whose status is not rejected and
    whose body is the JSON text of [data]. *)
Definition data_reply (r : Reply) (data : json) : Prop :=
  exists response, outcome r = Some response /\
    ~ (400 <= status_code response < 600) /\ body response = Some data.

Definition is_http_error (r : result json) : Prop :=
  exists status, r = Raise (HTTPError status).

(** The same call made once per element of [pauses], the clock advancing by
    that element after the call. *)
Fixpoint calls {unicode : Unicode} (config : Config) (upstream : Upstream) (url : string)
    (params : option (dict string)) (timeout : option Z) (pauses : list Z)
    (w : World) : list (result json) * World :=
  match pauses with
  | [] => ([], w)
  | pause :: pauses' =>
      let '(r, w1) := get_with_cache config upstream url params timeout w in
      let '(rs, w2) := calls config upstream url params timeout pauses' (tick pause w1) in
      (r :: rs, w2)
  end.

(** The world once a GET has been sent and answered. *)
Definition after_get (upstream : Upstream) (url : string)
    (params : option (dict string)) (w : World) : World :=
  set_clock (clock w + took (upstream (sent w) (url, params)))
    (set_sent (sent w ++ [(url, params)]) w).

(** The parameters [get_station_readings] passes on, given the ones it
    received and the local time. *)
Definition shaped (now : Datetime.datetime) (d : dict string) : dict string :=
  dict_set "_sorted" EmptyString
    (if needs_since d
     then dict_set "since" (Datetime.isoformat (now - Datetime.timedelta_hours 24)) d
     else d).

Definition local_now (utcoffset : Z -> Z) (w : World) : Datetime.datetime :=
  clock w + utcoffset (clock w) * 1000000.

(** The parameters the caller of [get_station_readings] supplied, and the
    dict object the function works on: the caller's, or a new one. *)
Definition supplied (params : option loc) (w : World) : dict string :=
  match params with
  | None => []
  | Some p => default [] (heap w !! p)
  end.

Definition target (params : option loc) (w : World) : loc :=
  match params with
  | None => fresh (dom (heap w))
  | Some p => p
  end.

Definition readings_url (config : Config) (station_id : string) : string :=
  API_BASE_URL config +:+ "/id/stations/" +:+ station_id +:+ "/readings".

Definition stations_url (config : Config) : string :=
  API_BASE_URL config +:+ "/id/stations".

End Spec.

(** ** Sample worlds

    Concrete upstreams and worlds on which the properties are run. *)

Module Sample.
Import Py Runtime ea_service routes Spec.

(** The table of the sample worlds: Python's from U+0000 to U+00FF, where
    the controls, the no-break space and the soft hyphen are not printable,
    and nothing printable beyond. The sample requests are ASCII, for which
    no table is consulted ([PyFacts.repr_ascii]). *)
Definition latin1 : Unicode :=
  fun cp => ((32 <=? cp) && (cp <? 127) || (161 <=? cp) && (cp <? 256) && negb (cp =? 173))%N.

#[local] Existing Instance latin1.

(** A host on UTC, and a host on British time around the end of summer
    time 2024: an hour east of UTC until 2024-10-27T01:00:00Z, on UTC from
    then on. *)
Definition utc : Z -> Z := fun _ => 0.

Definition london : Z -> Z :=
  fun t => if t <? 1729990800000000 then 3600 else 0.

Definition reply_ok (data : json) : Reply :=
  {| took := 1000; outcome := Some {| status_code := 200; body := Some data |} |}.

Definition reply_500 : Reply :=
  {| took := 1000; outcome := Some {| status_code := 500; body := None |} |}.

(** An upstream that answers every request with the number of requests it
    has seen before. *)
Definition upstream_counting : Upstream :=
  fun history _ => reply_ok (JInt (Z.of_nat (length history))).

(** An upstream that answers every request with 300 Multiple Choices and a
    JSON body: a status that is no success and that [raise_for_status] lets
    pass. *)
Definition choices : json := JDict [("choices", JList [JStr "a"; JStr "b"])].

Definition reply_300 : Reply :=
  {| took := 1000; outcome := Some {| status_code := 300; body := Some choices |} |}.

Definition upstream_choices : Upstream := fun _ _ => reply_300.

(** An upstream that is down for the first two requests. *)
Definition upstream_flaky : Upstream :=
  fun history _ =>
    if (length history <? 2)%nat then reply_500 else reply_ok (JStr "up").

Definition thames : json :=
  JDict [("stationReference", JStr "1029TH"); ("riverName", JStr "River Thames")].

(** An upstream that knows one station. *)
Definition upstream_stations : Upstream :=
  fun _ request =>
    match dict_get "stationReference" (default [] (snd request)) with
    | Some reference =>
        if String.eqb reference "1029TH"
        then reply_ok (JDict [("items", JList [thames])])
        else reply_ok (JDict [("items", JList [])])
    | None => reply_ok (JDict [("items", JList [thames])])
    end.

(** 2024-01-01T12:00:00 UTC, an empty cache, nothing sent yet. *)
Definition noon : World :=
  {| clock := 1704110400000000; cache := ∅; heap := ∅; sent := [] |}.

(** The same moment, with one dict of the caller on the heap. *)
Definition noon_with (d : dict string) : World :=
  {| clock := 1704110400000000; cache := ∅; heap := {[ 1%positive := d ]}; sent := [] |}.

Definition ab : dict string := [("a", "1"); ("b", "2")].
Definition ba : dict string := [("b", "2"); ("a", "1")].

(** The first call at noon, with the default timeout of 300 seconds. *)
Definition first_call (params : option (dict string)) : result json * World :=
  get_with_cache Config_default upstream_counting "u" params None noon.

(** The first call at noon against the upstream that answers 300. *)
Definition choices_call : result json * World :=
  get_with_cache Config_default upstream_choices "u" None None noon.

(** Two calls meet the upstream down, a second apart; the third gets data. *)
Definition retries : list (result json) * World :=
  calls Config_default upstream_flaky "u" None None [1000000; 1000000] noon.

(** The world 200 seconds after the first call. *)
Definition later : World := tick 200000000 (snd (first_call (Some ab))).

(** The readings of station 1029TH asked at noon UTC, the caller's dict, if
    any, being the one at reference 1. *)
Definition sample_readings (params : option loc) (w : World) : result json * World :=
  get_station_readings Config_default utc upstream_counting "1029TH" params w.

Definition sample_url : string :=
  "https://environment.data.gov.uk/flood-monitoring/id/stations/1029TH/readings".

(** The stations with a given reference, asked at noon. *)
Definition stations_of (station_id : string) : result json * World :=
  get_stations Config_default upstream_stations
    (Some [("stationReference", station_id)]) noon.

End Sample.

(** ** The text of a key, read from its end

    Notions used to show that the key of a request determines the url and
    the parameters. *)

Module Text.
Import Py.

Abbreviation chars := list_ascii_of_string.

(** Every occurrence of the quote [q] in [l] has a backslash right after
    it: the shape of the inside of a quoted string read backwards. *)
Fixpoint guardedb (q : ascii) (l : list ascii) : bool :=
  match l with
  | [] => true
  | c :: l' =>
      (negb (Ascii.eqb c q) ||
       match l' with b :: _ => Ascii.eqb b backslash | [] => false end) &&
      guardedb q l'
  end.

(** The items of a printed dict without the braces. *)
Fixpoint join_items {unicode : Unicode} (d : dict string) : string :=
  match d with
  | [] => EmptyString
  | (k, v) :: d' =>
      repr k +:+ ": " +:+ repr v +:+
      match d' with [] => EmptyString | _ :: _ => ", " +:+ join_items d' end
  end.

(** A printed dict up to its closing brace. *)
Definition before_brace {unicode : Unicode} (d : dict string) : list ascii :=
  "{"%char :: chars (join_items d).

(** What stands before the last item of a printed dict whose other items
    are [d]: all but its last character, and that character. *)
Definition lead {unicode : Unicode} (d : dict string) : list ascii * ascii :=
  match d with
  | [] => ([], "{"%char)
  | _ :: _ => (before_brace d ++ [","%char], " "%char)
  end.

End Text.

(** ** Sessions of calls and what the cache may hold *)

Module Session.
Import Py Runtime ea_service Spec.

(** One call of [get_with_cache] in a session, and the time that passes
    after it. *)
Record Call := {
  call_url : string;
  call_params : option (dict string);
  call_timeout : option Z;
  call_pause : Z
}.

(** The calls of a session made one after the other. *)
Fixpoint session {unicode : Unicode} (config : Config) (upstream : Upstream)
    (cs : list Call) (w : World) : list (result json) * World :=
  match cs with
  | [] => ([], w)
  | c :: cs' =>
      let '(r, w1) :=
        get_with_cache config upstream (call_url c) (call_params c) (call_timeout c) w in
      let '(rs, w2) := session config upstream cs' (tick (call_pause c) w1) in
      (r :: rs, w2)
  end.

(** [data] is what the upstream sent in answer to a GET for [q] that stands
    in the log. *)
Definition answered (upstream : Upstream) (log : list Request) (q : Request)
    (data : json) : Prop :=
  exists h rest, log = h ++ [q] ++ rest /\ data_reply (upstream h q) data.

(** Every entry under the key of a request holds an answer to a GET for
    that request. *)
Definition cache_sound {unicode : Unicode} (upstream : Upstream) (w : World) : Prop :=
  forall url params t data,
    cache w !! cache_key url params = Some (t, data) ->
    answered upstream (sent w) (url, params) data.

(** The result of a call, when it is data, is an answer to a GET for the
    request of the call. *)
Definition result_answered (upstream : Upstream) (log : list Request) (c : Call)
    (r : result json) : Prop :=
  forall v, r = Ok v -> answered upstream log (call_url c, call_params c) v.

End Session.

(** ** The calendar read backwards

    The ordinal of a date, by which [ord2ymd] is shown to lose nothing, and
    the range of instants a [datetime] can hold. *)

Module Calendar.
Import Datetime.

Definition is_leap (y : Z) : bool :=
  (y mod 4 =? 0) && (negb (y mod 100 =? 0) || (y mod 400 =? 0)).

Definition days_before_year (y : Z) : Z :=
  (y - 1) * 365 + (y - 1) / 4 - (y - 1) / 100 + (y - 1) / 400.

Definition ymd2ord (y m d : Z) : Z :=
  days_before_year y + days_before_month (is_leap y) m + d.

(** Month and day of the day [r] of a year, counted from 0, as [ord2ymd]
    finds them. *)
Definition month_day (leap : bool) (r : Z) : Z * Z :=
  let month := Z.shiftr (r + 50) 5 in
  let preceding := days_before_month leap month in
  if r <? preceding
  then (month - 1, r - (preceding - days_in_month leap (month - 1)) + 1)
  else (month, r - preceding + 1).

Definition month_day_ok (leap : bool) (k : nat) : bool :=
  let '(m, d) := month_day leap (Z.of_nat k) in
  (1 <=? m) && (m <=? 12) && (1 <=? d) && (d <=? 31) &&
  (days_before_month leap m + d =? Z.of_nat k + 1).

(** From 0001-01-01T00:00:00 to the end of the year 9999, in microseconds
    since 1970. *)
Definition iso_range (dt : Z) : Prop :=
  -62135596800000000 <= dt < 253402300800000000.

End Calendar.

(** ** More sample worlds *)

Module Trial.
Import Py Runtime ea_service routes Spec Session Sample.

#[local] Existing Instance latin1.

(** A session of three calls: the same request twice, a second apart, then
    another request with a timeout of zero. *)
Definition three_calls : list Call :=
  [ {| call_url := "u"; call_params := Some ab; call_timeout := None;
       call_pause := 1000000 |};
    {| call_url := "u"; call_params := Some ab; call_timeout := None;
       call_pause := 1000000 |};
    {| call_url := "v"; call_params := None; call_timeout := Some 0;
       call_pause := 0 |} ].

(** The first call at noon against the upstream that is down. *)
Definition failed_call : result json * World :=
  get_with_cache Config_default upstream_flaky "u" None None noon.

(** Readings of station 1029TH asked through the view at noon UTC. *)
Definition view_readings (args : list (string * string)) (w : World)
    : result View * World :=
  readings Config_default utc upstream_counting "1029TH" args w.

(** 2024-10-27T00:30:00 UTC, half past one of British summer time, half an
    hour before the clocks go back. *)
Definition half_past : World :=
  {| clock := 1729989000000000; cache := ∅; heap := ∅; sent := [] |}.

Definition config_two_hours : Config :=
  {| API_BASE_URL := "https://environment.data.gov.uk/flood-monitoring";
     CACHE_TIMEOUT := 7200 |}.

(** Default readings asked through the view at that moment on a host on
    British time. *)
Definition hour_repeated : result View * World :=
  readings config_two_hours london upstream_counting "1029TH" [] half_past.

Definition level : dict string := [("parameter", "level")].

Definition dated : list (string * string) := [("date", "2024-01-01")].

Definition by_reference : list (string * string) := [("stationReference", "1029TH")].

End Trial.

(** * Properties *)

(** ** The textual form of the parameters determines them *)

Module PyFacts.
Import Py Spec.

Lemma app_cons (c : ascii) (s t : string) : String c s +:+ t = String c (s +:+ t).
Proof. reflexivity. Qed.

Lemma app_nil_l (t : string) : EmptyString +:+ t = t.
Proof. reflexivity. Qed.

Lemma app_assoc (s t u : string) : (s +:+ t) +:+ u = s +:+ (t +:+ u).
Proof.
  induction s as [|c s IH]; [reflexivity|].
  rewrite !app_cons, IH. reflexivity.
Qed.

Lemma app_inv_head (s t u : string) : s +:+ t = s +:+ u -> t = u.
Proof.
  induction s as [|c s IH]; [exact id|].
  rewrite !app_cons. intros H. injection H as H. auto.
Qed.

Lemma quote_of_cases (s : string) : quote_of s = squote \/ quote_of s = dquote.
Proof. unfold quote_of. destruct (_ && _); auto. Qed.

(** One escaped byte below 128 is read back as that byte. *)
Lemma unescape_escape_char (q c : ascii) (tail : string) :
  q = squote \/ q = dquote ->
  unescape q (escape_char q c +:+ tail) = push c (unescape q tail).
Proof.
  intros [-> | ->];
    destruct c as [[] [] [] [] [] [] [] []]; reflexivity.
Qed.

Lemma hex_value_digit (x : N) : (x < 16)%N -> hex_value (hex_digit x) = x.
Proof.
  intros H.
  destruct x as [|p]; [reflexivity|].
  do 4 (destruct p as [p|p|]; try reflexivity); exfalso; lia.
Qed.

Lemma hex2_digits (x y : N) :
  (x < 16)%N -> (y < 16)%N -> hex2 (hex_digit x) (hex_digit y) = (16 * x + y)%N.
Proof. intros Hx Hy. unfold hex2. rewrite !hex_value_digit by assumption. reflexivity. Qed.

Ltac div_lia := zify; Z.to_euclidean_division_equations; lia.

Lemma mod16 (x : N) : (x mod 16 < 16)%N.
Proof. apply N.mod_upper_bound. discriminate. Qed.

(** Split [x] into its last hexadecimal digit and the rest. *)
Ltac digit x :=
  let a := fresh "a" in
  let m := fresh "m" in
  pose proof (N.div_mod' x 16);
  pose proof (mod16 x);
  set (a := (x / 16)%N) in *;
  set (m := (x mod 16)%N) in *;
  clearbody a m.

Lemma hex_value_2 (cp : N) :
  (cp < 256)%N ->
  hex2 (hex_digit ((cp / 16) mod 16)) (hex_digit (cp mod 16)) = cp.
Proof.
  intros H. rewrite hex2_digits by apply mod16.
  digit cp. digit a. lia.
Qed.

Lemma hex_value_4 (cp : N) :
  (cp < 65536)%N ->
  (256 * hex2 (hex_digit ((cp / 16 / 16 / 16) mod 16)) (hex_digit ((cp / 16 / 16) mod 16)) +
   hex2 (hex_digit ((cp / 16) mod 16)) (hex_digit (cp mod 16)))%N = cp.
Proof.
  intros H. rewrite !hex2_digits by apply mod16.
  digit cp. digit a. digit a0. digit a1. lia.
Qed.

Lemma hex_value_8 (cp : N) :
  (cp < 4294967296)%N ->
  (16777216 * hex2 (hex_digit ((cp / 16 / 16 / 16 / 16 / 16 / 16 / 16) mod 16))
                (hex_digit ((cp / 16 / 16 / 16 / 16 / 16 / 16) mod 16)) +
   65536 * hex2 (hex_digit ((cp / 16 / 16 / 16 / 16 / 16) mod 16))
             (hex_digit ((cp / 16 / 16 / 16 / 16) mod 16)) +
   256 * hex2 (hex_digit ((cp / 16 / 16 / 16) mod 16))
           (hex_digit ((cp / 16 / 16) mod 16)) +
   hex2 (hex_digit ((cp / 16) mod 16)) (hex_digit (cp mod 16)))%N = cp.
Proof.
  intros H. rewrite !hex2_digits by apply mod16.
  digit cp. digit a. digit a0. digit a1. digit a2. digit a3. digit a4. digit a5. lia.
Qed.

Lemma unescape_x (q h1 h2 : ascii) (s : string) :
  q = squote \/ q = dquote ->
  unescape q (String backslash (String "x" (String h1 (String h2 s)))) =
  push_code (hex2 h1 h2) (unescape q s).
Proof. intros [-> | ->]; reflexivity. Qed.

Lemma unescape_u (q h1 h2 h3 h4 : ascii) (s : string) :
  q = squote \/ q = dquote ->
  unescape q (String backslash (String "u"
    (String h1 (String h2 (String h3 (String h4 s)))))) =
  push_code (256 * hex2 h1 h2 + hex2 h3 h4) (unescape q s).
Proof. intros [-> | ->]; reflexivity. Qed.

Lemma unescape_U (q h1 h2 h3 h4 h5 h6 h7 h8 : ascii) (s : string) :
  q = squote \/ q = dquote ->
  unescape q (String backslash (String "U"
    (String h1 (String h2 (String h3 (String h4
      (String h5 (String h6 (String h7 (String h8 s)))))))))) =
  push_code (16777216 * hex2 h1 h2 + 65536 * hex2 h3 h4 + 256 * hex2 h5 h6 + hex2 h7 h8)
    (unescape q s).
Proof. intros [-> | ->]; reflexivity. Qed.

(** An escaped code point is read back as the bytes of the code point. *)
Lemma unescape_escape_code (q : ascii) (cp : N) (tail : string) :
  q = squote \/ q = dquote -> (cp < 4294967296)%N ->
  unescape q (escape_code cp +:+ tail) = push_code cp (unescape q tail).
Proof.
  intros Hq Hcp. unfold escape_code.
  destruct (N.ltb_spec cp 256) as [H1|H1]; [|destruct (N.ltb_spec cp 65536) as [H2|H2]].
  - change (String backslash (String "x" (hex_digits 2 cp)) +:+ tail)
      with (String backslash (String "x"
              (String (hex_digit ((cp / 16) mod 16))
                 (String (hex_digit (cp mod 16)) tail)))).
    rewrite unescape_x, hex_value_2 by assumption. reflexivity.
  - change (String backslash (String "u" (hex_digits 4 cp)) +:+ tail)
      with (String backslash (String "u"
              (String (hex_digit ((cp / 16 / 16 / 16) mod 16))
              (String (hex_digit ((cp / 16 / 16) mod 16))
              (String (hex_digit ((cp / 16) mod 16))
              (String (hex_digit (cp mod 16)) tail)))))).
    rewrite unescape_u, hex_value_4 by assumption. reflexivity.
  - change (String backslash (String "U" (hex_digits 8 cp)) +:+ tail)
      with (String backslash (String "U"
              (String (hex_digit ((cp / 16 / 16 / 16 / 16 / 16 / 16 / 16) mod 16))
              (String (hex_digit ((cp / 16 / 16 / 16 / 16 / 16 / 16) mod 16))
              (String (hex_digit ((cp / 16 / 16 / 16 / 16 / 16) mod 16))
              (String (hex_digit ((cp / 16 / 16 / 16 / 16) mod 16))
              (String (hex_digit ((cp / 16 / 16 / 16) mod 16))
              (String (hex_digit ((cp / 16 / 16) mod 16))
              (String (hex_digit ((cp / 16) mod 16))
              (String (hex_digit (cp mod 16)) tail)))))))))).
    rewrite unescape_U, hex_value_8 by assumption. reflexivity.
Qed.

Lemma continuation_bits_Some (c : ascii) (x : N) :
  continuation_bits c = Some x -> (N_of_ascii c = 128 + x /\ x < 64)%N.
Proof.
  unfold continuation_bits.
  destruct (N.leb_spec 128 (N_of_ascii c)); [|discriminate].
  destruct (N.ltb_spec (N_of_ascii c) 192); [|discriminate].
  cbn. intros [= <-]. lia.
Qed.

Lemma ascii_of_N_of (c : ascii) (n : N) : N_of_ascii c = n -> ascii_of_N n = c.
Proof. intros <-. apply ascii_N_embedding. Qed.

(** A well-formed sequence is the encoding of its code point. *)
Lemma utf8_head_encode (c : ascii) (s : string) (k : nat) (cp : N) :
  utf8_head c s = Some (k, cp) ->
  String c s = utf8_encode cp +:+ string_drop k s /\ (128 <= cp < 1114112)%N.
Proof.
  unfold utf8_head.
  destruct (N.ltb_spec (N_of_ascii c) 194) as [L1|L1]; [discriminate|].
  destruct (N.ltb_spec (N_of_ascii c) 224) as [L2|L2];
    [|destruct (N.ltb_spec (N_of_ascii c) 240) as [L3|L3];
      [|destruct (N.ltb_spec (N_of_ascii c) 245) as [L4|L4]; [|discriminate]]].
  - destruct s as [|c1 s]; [discriminate|].
    destruct (continuation_bits c1) as [x1|] eqn:E1; [|discriminate].
    apply continuation_bits_Some in E1 as [E1 B1].
    intros [= <- <-].
    assert (Hcp : (128 <= (N_of_ascii c - 192) * 64 + x1 < 2048)%N) by lia.
    split; [|lia].
    unfold utf8_encode.
    destruct (N.ltb_spec ((N_of_ascii c - 192) * 64 + x1) 128); [lia|].
    destruct (N.ltb_spec ((N_of_ascii c - 192) * 64 + x1) 2048); [|lia].
    cbn [string_drop]. rewrite !app_cons. f_equal; [|f_equal].
    + symmetry. apply ascii_of_N_of. div_lia.
    + symmetry. apply ascii_of_N_of. div_lia.
  - destruct s as [|c1 [|c2 s]]; try discriminate.
    destruct (continuation_bits c1) as [x1|] eqn:E1; [|discriminate].
    destruct (continuation_bits c2) as [x2|] eqn:E2; [|discriminate].
    apply continuation_bits_Some in E1 as [E1 B1], E2 as [E2 B2].
    cbv zeta.
    destruct (N.leb_spec 2048 ((N_of_ascii c - 224) * 4096 + x1 * 64 + x2)) as [Hlo|Hlo];
      [|discriminate].
    intros [= <- <-].
    assert (Hcp : ((N_of_ascii c - 224) * 4096 + x1 * 64 + x2 < 65536)%N) by lia.
    split; [|lia].
    unfold utf8_encode.
    destruct (N.ltb_spec ((N_of_ascii c - 224) * 4096 + x1 * 64 + x2) 128); [lia|].
    destruct (N.ltb_spec ((N_of_ascii c - 224) * 4096 + x1 * 64 + x2) 2048); [lia|].
    destruct (N.ltb_spec ((N_of_ascii c - 224) * 4096 + x1 * 64 + x2) 65536); [|lia].
    cbn [string_drop]. rewrite !app_cons. f_equal; [|f_equal; [|f_equal]].
    + symmetry. apply ascii_of_N_of. div_lia.
    + symmetry. apply ascii_of_N_of. div_lia.
    + symmetry. apply ascii_of_N_of. div_lia.
  - destruct s as [|c1 [|c2 [|c3 s]]]; try discriminate.
    destruct (continuation_bits c1) as [x1|] eqn:E1; [|discriminate].
    destruct (continuation_bits c2) as [x2|] eqn:E2; [|discriminate].
    destruct (continuation_bits c3) as [x3|] eqn:E3; [|discriminate].
    apply continuation_bits_Some in E1 as [E1 B1], E2 as [E2 B2], E3 as [E3 B3].
    cbv zeta.
    destruct (N.leb_spec 65536
                ((N_of_ascii c - 240) * 262144 + x1 * 4096 + x2 * 64 + x3)) as [Hlo|Hlo];
      [|discriminate].
    destruct (N.ltb_spec ((N_of_ascii c - 240) * 262144 + x1 * 4096 + x2 * 64 + x3)
                1114112) as [Hhi|Hhi]; [|discriminate].
    cbn [andb]. intros [= <- <-].
    split; [|lia].
    unfold utf8_encode.
    destruct (N.ltb_spec ((N_of_ascii c - 240) * 262144 + x1 * 4096 + x2 * 64 + x3) 128);
      [lia|].
    destruct (N.ltb_spec ((N_of_ascii c - 240) * 262144 + x1 * 4096 + x2 * 64 + x3) 2048);
      [lia|].
    destruct (N.ltb_spec ((N_of_ascii c - 240) * 262144 + x1 * 4096 + x2 * 64 + x3) 65536);
      [lia|].
    cbn [string_drop]. rewrite !app_cons. f_equal; [|f_equal; [|f_equal; [|f_equal]]].
    + symmetry. apply ascii_of_N_of. div_lia.
    + symmetry. apply ascii_of_N_of. div_lia.
    + symmetry. apply ascii_of_N_of. div_lia.
    + symmetry. apply ascii_of_N_of. div_lia.
Qed.

Lemma app_single (c : ascii) (s t : string) :
  (String c EmptyString +:+ s) +:+ t = String c (s +:+ t).
Proof. reflexivity. Qed.

Lemma quote_low (q : ascii) : q = squote \/ q = dquote -> (N_of_ascii q < 128)%N.
Proof. intros [-> | ->]; reflexivity. Qed.

(** A byte from 128 on stands for itself. *)
Lemma unescape_high (q c : ascii) (tail : string) :
  q = squote \/ q = dquote -> (128 <= N_of_ascii c)%N ->
  unescape q (String c tail) = push c (unescape q tail).
Proof.
  intros Hq Hc. cbn [unescape].
  destruct (Ascii.eqb_spec c q) as [->|_].
  { apply quote_low in Hq. lia. }
  destruct (Ascii.eqb_spec c backslash) as [->|_]; [|reflexivity].
  exfalso. cbn in Hc. lia.
Qed.

Section Repr.

Context {unicode : Unicode}.

(** The inside of the quotes, followed by the closing quote and any text,
    is read back as the string. *)
Lemma unescape_escape_from (q : ascii) (s rest : string) (k : nat) :
  q = squote \/ q = dquote ->
  unescape q (escape_from k q s +:+ String q rest) = Some (string_drop k s, rest).
Proof.
  intros Hq. revert k. induction s as [|c s IH]; intros k.
  - destruct k; destruct Hq as [-> | ->]; reflexivity.
  - destruct k as [|k]; [|apply IH].
    cbn [escape_from string_drop]. unfold escape_step.
    destruct (N.ltb_spec (N_of_ascii c) 128) as [Hlow|Hhigh].
    + rewrite app_assoc, unescape_escape_char, IH by assumption. reflexivity.
    + destruct (utf8_head c s) as [[k' cp]|] eqn:Hhead.
      * destruct (isprintable cp).
        -- rewrite app_single, unescape_high, IH by assumption. reflexivity.
        -- apply utf8_head_encode in Hhead as [Henc Hcp].
           rewrite app_assoc, unescape_escape_code, IH by (assumption || lia).
           cbn [push_code]. rewrite <- Henc. reflexivity.
      * rewrite app_single, unescape_high, IH by assumption. reflexivity.
Qed.

Lemma unescape_escape (q : ascii) (s rest : string) :
  q = squote \/ q = dquote ->
  unescape q (escape q s +:+ String q rest) = Some (s, rest).
Proof. intros Hq. apply (unescape_escape_from q s rest 0 Hq). Qed.

(** [repr] followed by any text is read back exactly. *)
Lemma unrepr_repr (s rest : string) : unrepr (repr s +:+ rest) = Some (s, rest).
Proof.
  unfold repr. cbv zeta. rewrite app_cons, app_assoc, app_cons, app_nil_l.
  unfold unrepr.
  destruct (quote_of_cases s) as [E | E]; rewrite E in *.
  - apply unescape_escape. auto.
  - apply unescape_escape. auto.
Qed.

Lemma repr_inj_app (a b r1 r2 : string) :
  repr a +:+ r1 = repr b +:+ r2 -> a = b /\ r1 = r2.
Proof.
  intros H. apply (f_equal unrepr) in H. rewrite !unrepr_repr in H.
  injection H as -> ->. auto.
Qed.

Lemma repr_not_brace (a r : string) : repr a +:+ r <> "}".
Proof.
  unfold repr. cbv zeta. rewrite app_cons.
  destruct (quote_of_cases a) as [-> | ->]; discriminate.
Qed.

Lemma str_items_cons (k v : string) (d : dict string) :
  str_items ((k, v) :: d) = repr k +:+ ": " +:+ repr v +:+ after_item d.
Proof. reflexivity. Qed.

(** Two dicts print alike only when they hold the same items in the same
    order. *)
Lemma str_items_inj (d1 d2 : dict string) : str_items d1 = str_items d2 -> d1 = d2.
Proof.
  revert d2. induction d1 as [|[k1 v1] d1 IH]; intros [|[k2 v2] d2] H.
  - reflexivity.
  - rewrite str_items_cons in H. symmetry in H. apply repr_not_brace in H. contradiction.
  - rewrite str_items_cons in H. apply repr_not_brace in H. contradiction.
  - rewrite !str_items_cons in H.
    apply repr_inj_app in H as [-> H].
    apply (app_inv_head ": ") in H.
    apply repr_inj_app in H as [-> H].
    f_equal.
    destruct d1 as [|i1 d1], d2 as [|i2 d2]; try discriminate H.
    + reflexivity.
    + apply IH. apply (app_inv_head ", ") in H. exact H.
Qed.

Lemma str_params_inj (p1 p2 : option (dict string)) :
  str_params p1 = str_params p2 -> p1 = p2.
Proof.
  destruct p1 as [d1|], p2 as [d2|]; unfold str_params; intros H;
    try discriminate H; [|reflexivity].
  apply (app_inv_head "{") in H. apply str_items_inj in H. congruence.
Qed.

(** The text of the sample parameters, as Python prints them. *)
Example str_params_ab : str_params (Some Sample.ab) = "{'a': '1', 'b': '2'}".
Proof. reflexivity. Qed.

Example str_params_empty : str_params (Some []) = "{}".
Proof. reflexivity. Qed.

Example repr_control : repr (String "010" (String "127" "a\b")) = "'\n\x7fa\\b'".
Proof. reflexivity. Qed.

(** The no-break space U+00A0, the bytes C2 A0, is escaped where the table
    has it not printable, as every table of Python has; the inverted
    exclamation mark U+00A1, the bytes C2 A1, is copied where the table has
    it printable. *)
Example repr_no_break_space :
  isprintable 160 = false -> repr (String "194" (String "160" EmptyString)) = "'\xa0'".
Proof. intros H. unfold isprintable in H. cbv. rewrite H. reflexivity. Qed.

Example repr_inverted_exclamation :
  isprintable 161 = true ->
  repr (String "194" (String "161" EmptyString)) =
    String squote (String "194" (String "161" (String squote EmptyString))).
Proof. intros H. unfold isprintable in H. cbv. rewrite H. reflexivity. Qed.

(** The zero width space U+200B, the bytes E2 80 8B, where it is not
    printable. *)
Example repr_zero_width_space :
  isprintable 8203 = false ->
  repr (String "226" (String "128" (String "139" EmptyString))) = "'\u200b'".
Proof. intros H. unfold isprintable in H. cbv. rewrite H. reflexivity. Qed.

End Repr.

(** The text of a string of bytes below 128 does not depend on the table. *)
Lemma escape_ascii (u1 u2 : Unicode) (q : ascii) (s : string) :
  is_ascii s = true -> @escape u1 q s = @escape u2 q s.
Proof.
  unfold escape. induction s as [|c s IH]; [reflexivity|].
  cbn [is_ascii escape_from]. intros H. apply andb_true_iff in H as [Hc Hs].
  unfold escape_step. rewrite Hc, (IH Hs). reflexivity.
Qed.

Lemma repr_ascii (u1 u2 : Unicode) (s : string) :
  is_ascii s = true -> @repr u1 s = @repr u2 s.
Proof. intros H. unfold repr. rewrite (escape_ascii u1 u2 _ s H). reflexivity. Qed.

End PyFacts.

(** ** [isoformat] on known dates *)

Module DatetimeFacts.
Import Datetime.

Example isoformat_epoch : isoformat 0 = "1970-01-01T00:00:00".
Proof. reflexivity. Qed.

Example isoformat_leap_day : isoformat 951782400000000 = "2000-02-29T00:00:00".
Proof. reflexivity. Qed.

Example isoformat_end_of_leap_year :
  isoformat 1735689599000000 = "2024-12-31T23:59:59".
Proof. reflexivity. Qed.

Example isoformat_microseconds :
  isoformat 1234567890123456 = "2009-02-13T23:31:30.123456".
Proof. reflexivity. Qed.

Example isoformat_yesterday :
  isoformat (1704110400000000 - timedelta_hours 24) = "2023-12-31T12:00:00".
Proof. reflexivity. Qed.

End DatetimeFacts.

(** ** The cache of [get_with_cache] *)

Module CacheFacts.
Import Py Runtime ea_service Spec.

Ltac run := unfold get_with_cache, bind, cache_find, time_time, requests_get,
  raise_for_status, response_json, cache_assign, ret, raise; cbn beta iota zeta.

Lemma tick_clock (d : Z) (w : World) : clock (tick d w) = clock w + d.
Proof. reflexivity. Qed.

Lemma tick_cache (d : Z) (w : World) : cache (tick d w) = cache w.
Proof. reflexivity. Qed.

Lemma tick_sent (d : Z) (w : World) : sent (tick d w) = sent w.
Proof. reflexivity. Qed.

(** No time passing is no change. *)
Lemma tick_0 (w : World) : tick 0 w = w.
Proof. destruct w. unfold tick, set_clock. cbn. rewrite Z.add_0_r. reflexivity. Qed.

Lemma lookup_fresh_Some (key : string) (ttl : Z) (w : World) (data : json) :
  lookup_fresh key ttl w = Some data <->
  exists t, cache w !! key = Some (t, data) /\ clock w - t < ttl * 1000000.
Proof.
  unfold lookup_fresh. destruct (cache w !! key) as [[t d]|].
  - destruct (Z.ltb_spec (clock w - t) (ttl * 1000000)); split.
    + intros [= ->]. eauto.
    + intros (t' & [= -> ->] & _). reflexivity.
    + discriminate.
    + intros (t' & [= -> ->] & ?). lia.
  - split; [discriminate | intros (t & [=] & _)].
Qed.

Lemma lookup_fresh_None (key : string) (ttl : Z) (w : World) :
  lookup_fresh key ttl w = None <->
  forall t data, cache w !! key = Some (t, data) -> ttl * 1000000 <= clock w - t.
Proof.
  unfold lookup_fresh. destruct (cache w !! key) as [[t d]|].
  - destruct (Z.ltb_spec (clock w - t) (ttl * 1000000)); split.
    + discriminate.
    + intros H'. specialize (H' t d eq_refl). lia.
    + intros _ t' d' [= -> ->]. assumption.
    + reflexivity.
  - split; [intros _ t d [=] | reflexivity].
Qed.

Section Cache.

Context {unicode : Unicode}.
Variable config : Config.
Variable upstream : Upstream.
Variable url : string.
Variable params : option (dict string).
Variable timeout : option Z.

Local Abbreviation ttl := (timeout_of config timeout).
Local Abbreviation key := (cache_key url params).
Local Abbreviation call := (get_with_cache config upstream url params timeout).

Local Abbreviation after := (after_get upstream url params).

(** A fresh entry is returned and nothing at all changes. *)
Lemma call_fresh (w : World) (data : json) :
  lookup_fresh key ttl w = Some data -> call w = (Ok data, w).
Proof.
  unfold lookup_fresh, timeout_of. run.
  destruct (cache w !! cache_key url params) as [[t d]|]; [|discriminate].
  destruct (_ <? _); [|discriminate]. intros [= ->]. reflexivity.
Qed.

(** Without a fresh entry the GET goes out; what it brings decides the rest. *)
Lemma call_stale (w : World) :
  lookup_fresh key ttl w = None ->
  call w =
    match outcome (upstream (sent w) (url, params)) with
    | None => (Raise ConnectionError, after w)
    | Some response =>
        if (400 <=? status_code response) && (status_code response <? 600)
        then (Raise (HTTPError (status_code response)), after w)
        else match body response with
             | None => (Raise JSONDecodeError, after w)
             | Some data =>
                 (Ok data,
                  set_cache (<[key := (clock (after w), data)]> (cache w)) (after w))
             end
    end.
Proof.
  unfold lookup_fresh, timeout_of, after_get. run.
  destruct (cache w !! cache_key url params) as [[t d]|].
  - destruct (_ <? _); [discriminate|]. intros _.
    destruct (outcome _) as [response|]; [|reflexivity].
    destruct (_ && _); [reflexivity|].
    destruct (body response); reflexivity.
  - intros _.
    destruct (outcome _) as [response|]; [|reflexivity].
    destruct (_ && _); [reflexivity|].
    destruct (body response); reflexivity.
Qed.

(** The outcomes of a call, one goal each. *)
Ltac call_cases w E :=
  destruct (lookup_fresh key ttl w) as [?data|] eqn:E;
  [ rewrite (call_fresh w _ E)
  | rewrite (call_stale w E);
    destruct (outcome (upstream (sent w) (url, params))) as [?response|] eqn:?;
    [ destruct ((400 <=? status_code response) && (status_code response <? 600)) eqn:?;
      [ | destruct (body response) as [?data|] eqn:? ] | ] ].

(** A call that raises leaves the cache as it found it. *)
Lemma raise_keeps_cache (w w' : World) (e : exn) :
  call w = (Raise e, w') -> cache w' = cache w.
Proof. call_cases w E; intros H; simplify_eq; reflexivity. Qed.

(** A call never touches the entry of another key, nor the heap. *)
Lemma call_frame (w w' : World) (r : result json) (k : string) :
  call w = (r, w') -> k <> key -> cache w' !! k = cache w !! k.
Proof.
  call_cases w E; intros [= <- <-] Hk; try reflexivity.
  cbn. rewrite lookup_insert_ne; [reflexivity | congruence].
Qed.

Lemma call_heap (w w' : World) (r : result json) :
  call w = (r, w') -> heap w' = heap w.
Proof. call_cases w E; intros [= <- <-]; reflexivity. Qed.

(** A call sends at most the one GET for its own request. *)
Lemma call_sent (w w' : World) (r : result json) :
  call w = (r, w') -> sent w' = sent w \/ sent w' = sent w ++ [(url, params)].
Proof. call_cases w E; intros [= <- <-]; auto. Qed.

Lemma call_sent_stale (w : World) :
  lookup_fresh key ttl w = None -> sent (snd (call w)) = sent w ++ [(url, params)].
Proof.
  intros E. rewrite (call_stale w E).
  destruct (outcome _) as [response|]; [|reflexivity].
  destruct (_ && _); [reflexivity|]. destruct (body response); reflexivity.
Qed.

(** After a call that returned, the key holds what was returned. *)
Lemma call_ok_entry (w w' : World) (v : json) :
  call w = (Ok v, w') ->
  exists t, cache w' !! key = Some (t, v) /\
    (lookup_fresh key ttl w = None -> t = clock w').
Proof.
  call_cases w E; intros [= <- <-].
  - apply lookup_fresh_Some in E as (t & E & _). exists t. split; [exact E | discriminate].
  - exists (clock (after w)). cbn. rewrite lookup_insert_eq. auto.
Qed.

Lemma http_error_status (response : Response) :
  400 <= status_code response < 600 <->
  (400 <=? status_code response) && (status_code response <? 600) = true.
Proof. rewrite andb_true_iff, Z.leb_le, Z.ltb_lt. reflexivity. Qed.

(** The call on a stale key whose GET is answered with an error status. *)
Lemma call_http_error (w : World) :
  lookup_fresh key ttl w = None ->
  http_error_reply (upstream (sent w) (url, params)) ->
  exists status, call w = (Raise (HTTPError status), after w).
Proof.
  intros E (response & Hout & Hst). rewrite (call_stale w E), Hout.
  apply http_error_status in Hst. rewrite Hst. eauto.
Qed.

(** The call on a stale key whose GET is answered with data. *)
Lemma call_data (w : World) (data : json) :
  lookup_fresh key ttl w = None ->
  data_reply (upstream (sent w) (url, params)) data ->
  call w = (Ok data, set_cache (<[key := (clock (after w), data)]> (cache w)) (after w)).
Proof.
  intros E (response & Hout & Hst & Hbody). rewrite (call_stale w E), Hout, Hbody.
  destruct (_ && _) eqn:Hb; [|reflexivity].
  apply http_error_status in Hb. contradiction.
Qed.

(** Entries are never stamped in the future, as long as no exchange takes
    negative time. *)
Lemma call_cache_wf (w w' : World) (r : result json) :
  (forall h q, 0 <= took (upstream h q)) ->
  cache_wf w -> call w = (r, w') -> cache_wf w'.
Proof.
  intros Htook Hwf.
  assert (Hafter : cache_wf (after w)).
  { intros k t d Hk. specialize (Hwf k t d Hk). cbn.
    specialize (Htook (sent w) (url, params)). lia. }
  call_cases w E; intros [= <- <-]; try assumption.
  intros k t d. cbn. destruct (decide (k = key)) as [->|Hne].
  - rewrite lookup_insert_eq. intros [= <- <-]. lia.
  - rewrite lookup_insert_ne by congruence. apply Hafter.
Qed.

(** The world a call that stores [data] leaves behind. *)
Local Abbreviation stored w data :=
  (set_cache (<[key := (clock (after w), data)]> (cache w)) (after w)).

Lemma lookup_fresh_stored (w : World) (data : json) (d : Z) :
  d < ttl * 1000000 -> lookup_fresh key ttl (tick d (stored w data)) = Some data.
Proof.
  intros Hd. apply lookup_fresh_Some. exists (clock (after w)).
  cbn. rewrite lookup_insert_eq. split; [reflexivity | lia].
Qed.

(** A call that went upstream and returned is answered from the cache when
    made again before the timeout has elapsed. *)
Lemma call_again (w0 w1 : World) (v : json) (d : Z) :
  lookup_fresh key ttl w0 = None ->
  call w0 = (Ok v, w1) ->
  d < ttl * 1000000 ->
  sent w1 = sent w0 ++ [(url, params)] /\
  call (tick d w1) = (Ok v, tick d w1).
Proof.
  intros E H Hd. rewrite (call_stale w0 E) in H.
  destruct (outcome _) as [response|]; [|discriminate].
  destruct (_ && _); [discriminate|].
  destruct (body response) as [data|]; [|discriminate].
  injection H as -> <-.
  split; [reflexivity|].
  apply call_fresh, lookup_fresh_stored, Hd.
Qed.

(** C2. Cache hit idempotence: when a call of [get_with_cache] finds no
    fresh entry and returns [v], it has sent exactly one GET, and the same
    call made again before the timeout has elapsed (after [d] microseconds,
    [d = 0] when the clock has not advanced) returns the same [v] and leaves
    the world, and so the log of GETs, untouched. *)
Theorem cache_hit_idempotence (w0 w1 : World) (v : json) (d : Z) :
  lookup_fresh key ttl w0 = None ->
  call w0 = (Ok v, w1) ->
  d < ttl * 1000000 ->
  sent w1 = sent w0 ++ [(url, params)] /\
  call (tick d w1) = (Ok v, tick d w1) /\
  sent (tick d w1) = sent w0 ++ [(url, params)].
Proof.
  intros E H Hd. destruct (call_again w0 w1 v d E H Hd) as [Hsent Hhit].
  rewrite tick_sent. auto.
Qed.

(** C3. Cache expiry: when a call returned, every entry being stamped no
    later than the clock, and more than the timeout passes before the same
    call is made again, that second call sends a new GET; when the GET
    brings [data], the call returns [data] and the entry of the key is
    overwritten with [data] stamped with the time of the store. *)
Theorem cache_expiry_overwrite (w0 w1 : World) (v1 data : json) (d : Z) :
  cache_wf w0 ->
  call w0 = (Ok v1, w1) ->
  ttl * 1000000 < d ->
  data_reply (upstream (sent w1) (url, params)) data ->
  exists w2,
    call (tick d w1) = (Ok data, w2) /\
    sent w2 = sent w1 ++ [(url, params)] /\
    clock w2 = clock w1 + d + took (upstream (sent w1) (url, params)) /\
    cache w2 = <[key := (clock w2, data)]> (cache w1) /\
    cache w2 !! key = Some (clock w2, data).
Proof.
  intros Hwf H Hd Hreply.
  assert (Hstale : lookup_fresh key ttl (tick d w1) = None).
  { apply lookup_fresh_None. intros t x Hx. rewrite tick_clock. rewrite tick_cache in Hx.
    destruct (call_ok_entry _ _ _ H) as (t' & Ht' & Hnew).
    rewrite Hx in Ht'. injection Ht' as <- ->.
    destruct (lookup_fresh key ttl w0) as [x|] eqn:E.
    - rewrite (call_fresh w0 _ E) in H. injection H as -> <-.
      specialize (Hwf _ _ _ Hx). lia.
    - rewrite (Hnew eq_refl). lia. }
  eexists. split; [apply (call_data _ _ Hstale Hreply)|].
  cbn. rewrite lookup_insert_eq. auto.
Qed.

(** The calls of a run of retries that all meet an error status. *)
Lemma calls_http_errors (pauses : list Z) (w : World) :
  (forall h q, 0 <= took (upstream h q)) ->
  lookup_fresh key ttl w = None ->
  Forall (fun pause => 0 <= pause) pauses ->
  (forall i, (i < length pauses)%nat ->
     http_error_reply (upstream (sent w ++ replicate i (url, params)) (url, params))) ->
  Forall is_http_error (fst (calls config upstream url params timeout pauses w)) /\
  length (fst (calls config upstream url params timeout pauses w)) = length pauses /\
  cache (snd (calls config upstream url params timeout pauses w)) = cache w /\
  sent (snd (calls config upstream url params timeout pauses w)) =
    sent w ++ replicate (length pauses) (url, params) /\
  lookup_fresh key ttl (snd (calls config upstream url params timeout pauses w)) = None.
Proof.
  intros Htook. revert w. induction pauses as [|pause pauses IH]; intros w E Hp Herr.
  - cbn. rewrite app_nil_r. auto.
  - apply Forall_cons in Hp as [Hpause Hp].
    destruct (call_http_error w E) as [status Hcall].
    { specialize (Herr O). cbn in Herr. rewrite app_nil_r in Herr. apply Herr. lia. }
    assert (E' : lookup_fresh key ttl (tick pause (after w)) = None).
    { apply lookup_fresh_None. intros t x Hx. cbn in Hx.
      rewrite lookup_fresh_None in E. specialize (E t x Hx). cbn.
      specialize (Htook (sent w) (url, params)). lia. }
    specialize (IH (tick pause (after w)) E' Hp).
    destruct IH as (IH1 & IH2 & IH3 & IH4 & IH5).
    { intros i Hi. cbn. rewrite <- (assoc_L (++)). apply (Herr (S i)). cbn. lia. }
    cbn [calls]. rewrite Hcall.
    destruct (calls config upstream url params timeout pauses (tick pause (after w)))
      as [rs w2] eqn:Hrun.
    cbn [fst snd] in *. split; [|split; [|split; [|split]]].
    + constructor; [exists status; reflexivity | exact IH1].
    + cbn. congruence.
    + rewrite IH3. reflexivity.
    + rewrite IH4. cbn. rewrite <- (assoc_L (++)). reflexivity.
    + exact IH5.
Qed.

(** C4, as the code has it. No negative caching of the statuses that
    [raise_for_status] rejects, those from 400 to 599: from a key without a
    fresh entry, as long as the GETs are answered with such a status, every
    call raises [HTTPError] and sends its own GET, and the cache stays
    exactly as it was; the first call whose GET is answered with any other
    status and a JSON body returns the body and stores it. *)
Theorem no_negative_caching (pauses : list Z) (w : World) (data : json) :
  (forall h q, 0 <= took (upstream h q)) ->
  lookup_fresh key ttl w = None ->
  Forall (fun pause => 0 <= pause) pauses ->
  (forall i, (i < length pauses)%nat ->
     http_error_reply (upstream (sent w ++ replicate i (url, params)) (url, params))) ->
  data_reply
    (upstream (sent w ++ replicate (length pauses) (url, params)) (url, params)) data ->
  let run := calls config upstream url params timeout pauses w in
  Forall is_http_error (fst run) /\
  length (fst run) = length pauses /\
  cache (snd run) = cache w /\
  sent (snd run) = sent w ++ replicate (length pauses) (url, params) /\
  fst (call (snd run)) = Ok data /\
  cache (snd (call (snd run))) = <[key := (clock (snd (call (snd run))), data)]> (cache w).
Proof.
  intros Htook E Hp Herr Hdata run.
  destruct (calls_http_errors pauses w Htook E Hp Herr) as (H1 & H2 & H3 & H4 & H5).
  fold run in H1, H2, H3, H4, H5.
  rewrite <- H4 in Hdata.
  rewrite (call_data _ _ H5 Hdata). cbn. rewrite H3. auto 10.
Qed.

(** C10. Cache frame: a call that finds a fresh entry returns it and leaves
    the whole world as it was, so the stamp of the entry is not renewed; a
    later call is a miss as soon as the timeout has passed since the entry
    was stored, however recent the last hit; and whatever a call does, the
    entries of all other keys are as before. *)
Theorem cache_frame (w : World) :
  (forall data, lookup_fresh key ttl w = Some data -> call w = (Ok data, w)) /\
  (forall t0 data d,
     cache w !! key = Some (t0, data) ->
     clock w - t0 < ttl * 1000000 ->
     ttl * 1000000 <= clock w + d - t0 ->
     call w = (Ok data, w) /\
     sent (snd (call (tick d w))) = sent w ++ [(url, params)]) /\
  (forall r w' k, call w = (r, w') -> k <> key -> cache w' !! k = cache w !! k).
Proof.
  split; [|split].
  - apply call_fresh.
  - intros t0 data d Hin Hfresh Hlate. split.
    + apply call_fresh, lookup_fresh_Some. eauto.
    + rewrite call_sent_stale; [reflexivity|].
      apply lookup_fresh_None. intros t x. cbn. rewrite Hin. intros [= <- <-]. lia.
  - intros r w' k. apply call_frame.
Qed.

End Cache.

(** *** The key of a request *)

Lemma cache_key_inj {unicode : Unicode} (url : string) (p1 p2 : option (dict string)) :
  cache_key url p1 = cache_key url p2 <-> p1 = p2.
Proof.
  split; [|intros ->; reflexivity].
  unfold cache_key. intros H.
  apply PyFacts.app_inv_head, (PyFacts.app_inv_head "?") in H.
  apply PyFacts.str_params_inj, H.
Qed.

(** A call made with other parameters finds nothing of what a call for the
    same url has stored: without an entry of its own it goes upstream. *)
Lemma other_params_miss {unicode : Unicode} (config : Config) (upstream : Upstream) (url : string)
    (p1 p2 : option (dict string)) (timeout : option Z) (w0 w1 : World)
    (r : result json) (d : Z) :
  p1 <> p2 ->
  get_with_cache config upstream url p1 timeout w0 = (r, w1) ->
  cache w0 !! cache_key url p2 = None ->
  sent (snd (get_with_cache config upstream url p2 timeout (tick d w1))) =
    sent w1 ++ [(url, p2)].
Proof.
  intros Hne H Hnone. rewrite call_sent_stale; [reflexivity|].
  apply lookup_fresh_None. intros t x. rewrite tick_cache.
  rewrite (call_frame _ _ _ _ _ _ _ _ _ H), Hnone; [discriminate|].
  rewrite cache_key_inj. congruence.
Qed.

(** C1, as the code has it. The key is the url followed by the text of the
    parameters in insertion order: two parameter dicts derive the same key
    exactly when they hold the same items in the same order. After a call
    that went upstream and returned, a call with the items in the same
    order hits the entry before the timeout has elapsed, and a call with them
    in another order, having no entry of its own, sends a second GET. *)
Theorem cache_key_insertion_order {unicode : Unicode} (config : Config) (upstream : Upstream)
    (url : string) (d1 d2 : dict string) (timeout : option Z)
    (w0 w1 : World) (v : json) (d : Z) :
  lookup_fresh (cache_key url (Some d1)) (timeout_of config timeout) w0 = None ->
  get_with_cache config upstream url (Some d1) timeout w0 = (Ok v, w1) ->
  d < timeout_of config timeout * 1000000 ->
  (cache_key url (Some d1) = cache_key url (Some d2) <-> d1 = d2) /\
  (d1 = d2 ->
     get_with_cache config upstream url (Some d2) timeout (tick d w1) = (Ok v, tick d w1)) /\
  (d1 <> d2 -> cache w0 !! cache_key url (Some d2) = None ->
     sent (snd (get_with_cache config upstream url (Some d2) timeout (tick d w1))) =
       sent w0 ++ [(url, Some d1); (url, Some d2)]).
Proof.
  intros E H Hd.
  destruct (call_again _ _ _ _ _ _ _ _ _ E H Hd) as [Hsent Hhit].
  split; [|split].
  - rewrite cache_key_inj. split; congruence.
  - intros <-. exact Hhit.
  - intros Hne Hnone.
    rewrite (other_params_miss _ _ _ (Some d1) (Some d2) _ w0 w1 (Ok v) d); try assumption.
    + rewrite Hsent, <- (assoc_L (++)). reflexivity.
    + congruence.
Qed.

(** C7, as the code has it. [None] is printed [None] and the empty dict
    [{}], so the two calls derive different keys; the call with the empty
    dict, having no entry of its own, does not hit what the call with [None]
    stored and sends its own GET. *)
Theorem none_and_empty_dict_keys {unicode : Unicode} (config : Config) (upstream : Upstream)
    (url : string) (timeout : option Z) (w0 w1 : World) (r : result json) (d : Z) :
  get_with_cache config upstream url None timeout w0 = (r, w1) ->
  cache w0 !! cache_key url (Some []) = None ->
  cache_key url None = url +:+ "?None" /\
  cache_key url (Some []) = url +:+ "?{}" /\
  cache_key url None <> cache_key url (Some []) /\
  sent (snd (get_with_cache config upstream url (Some []) timeout (tick d w1))) =
    sent w1 ++ [(url, Some [])].
Proof.
  intros H Hnone. split; [reflexivity|]. split; [reflexivity|]. split.
  - rewrite cache_key_inj. discriminate.
  - apply (other_params_miss _ _ _ None (Some []) _ w0 w1 r d); [discriminate | assumption..].
Qed.

(** *** The properties on the sample worlds *)

Import Sample.

#[local] Existing Instance latin1.

Lemma took_counting (h : list Request) (q : Request) : 0 <= took (upstream_counting h q).
Proof. cbn. lia. Qed.

Lemma took_flaky (h : list Request) (q : Request) : 0 <= took (upstream_flaky h q).
Proof. unfold upstream_flaky. destruct (_ <? _)%nat; cbn; lia. Qed.

Lemma cache_wf_noon : cache_wf noon.
Proof. intros key t data H. cbn in H. rewrite lookup_empty in H. discriminate. Qed.

Lemma cache_hit_idempotence_witness :
  lookup_fresh (cache_key "u" (Some ab)) 300 noon = None /\
  first_call (Some ab) = (Ok (JInt 0), snd (first_call (Some ab))) /\
  0 < 300 * 1000000 /\
  sent (snd (first_call (Some ab))) = [("u", Some ab)] /\
  get_with_cache Config_default upstream_counting "u" (Some ab) None
    (tick 0 (snd (first_call (Some ab)))) =
    (Ok (JInt 0), tick 0 (snd (first_call (Some ab)))) /\
  sent (tick 0 (snd (first_call (Some ab)))) = [("u", Some ab)].
Proof.
  assert (H1 : lookup_fresh (cache_key "u" (Some ab)) 300 noon = None) by reflexivity.
  assert (H2 : first_call (Some ab) = (Ok (JInt 0), snd (first_call (Some ab)))) by reflexivity.
  assert (H3 : 0 < 300 * 1000000) by lia.
  split; [exact H1|]. split; [exact H2|]. split; [exact H3|].
  exact (cache_hit_idempotence Config_default upstream_counting "u" (Some ab) None
           noon _ (JInt 0) 0 H1 H2 H3).
Defined.

Lemma cache_expiry_overwrite_witness :
  cache_wf noon /\
  first_call (Some ab) = (Ok (JInt 0), snd (first_call (Some ab))) /\
  300 * 1000000 < 300000001 /\
  exists w2,
    get_with_cache Config_default upstream_counting "u" (Some ab) None
      (tick 300000001 (snd (first_call (Some ab)))) = (Ok (JInt 1), w2) /\
    sent w2 = [("u", Some ab); ("u", Some ab)] /\
    clock w2 = 1704110400001000 + 300000001 + 1000 /\
    cache w2 = <[cache_key "u" (Some ab) := (clock w2, JInt 1)]>
                 (cache (snd (first_call (Some ab)))) /\
    cache w2 !! cache_key "u" (Some ab) = Some (clock w2, JInt 1).
Proof.
  assert (H2 : first_call (Some ab) = (Ok (JInt 0), snd (first_call (Some ab)))) by reflexivity.
  assert (H3 : 300 * 1000000 < 300000001) by lia.
  assert (H4 : data_reply
                 (upstream_counting (sent (snd (first_call (Some ab)))) ("u", Some ab))
                 (JInt 1)).
  { eexists. split; [reflexivity|]. split; [cbn; lia | reflexivity]. }
  split; [exact cache_wf_noon|]. split; [exact H2|]. split; [exact H3|].
  exact (cache_expiry_overwrite Config_default upstream_counting "u" (Some ab) None
           noon _ (JInt 0) (JInt 1) 300000001 cache_wf_noon H2 H3 H4).
Defined.

Lemma no_negative_caching_witness :
  Forall is_http_error (fst retries) /\
  length (fst retries) = 2%nat /\
  cache (snd retries) = ∅ /\
  sent (snd retries) = [("u", None); ("u", None)] /\
  fst (get_with_cache Config_default upstream_flaky "u" None None (snd retries)) =
    Ok (JStr "up") /\
  cache (snd (get_with_cache Config_default upstream_flaky "u" None None (snd retries))) =
    <[cache_key "u" None :=
        (clock (snd (get_with_cache Config_default upstream_flaky "u" None None (snd retries))),
         JStr "up")]> ∅.
Proof.
  refine (no_negative_caching Config_default upstream_flaky "u" None None
            [1000000; 1000000] noon (JStr "up") took_flaky eq_refl _ _ _).
  - repeat constructor; lia.
  - intros [|[|i]] Hi.
    + exists {| status_code := 500; body := None |}. split; [reflexivity | cbn; lia].
    + exists {| status_code := 500; body := None |}. split; [reflexivity | cbn; lia].
    + cbn in Hi. lia.
  - eexists. split; [reflexivity|]. split; [cbn; lia | reflexivity].
Defined.

(** C4 fails on the code for a status that is no success and none of
    400 to 599: the body of a 300 is returned, not raised, and it is cached,
    so that the next call gets it again without a GET. *)
Lemma non_success_cached_counterexample :
  outcome (upstream_choices [] ("u", None)) =
    Some {| status_code := 300; body := Some choices |} /\
  choices_call = (Ok choices, snd choices_call) /\
  cache noon !! cache_key "u" None = None /\
  cache (snd choices_call) !! cache_key "u" None = Some (1704110400001000, choices) /\
  get_with_cache Config_default upstream_choices "u" None None
    (tick 1000000 (snd choices_call)) = (Ok choices, tick 1000000 (snd choices_call)) /\
  sent (tick 1000000 (snd choices_call)) = [("u", None)].
Proof. repeat split; reflexivity. Qed.

Lemma cache_frame_witness :
  get_with_cache Config_default upstream_counting "u" (Some ab) None later
    = (Ok (JInt 0), later) /\
  sent (snd (get_with_cache Config_default upstream_counting "u" (Some ab) None
               (tick 200000000 later))) = [("u", Some ab); ("u", Some ab)] /\
  cache (snd (first_call (Some ab))) !! cache_key "u" (Some ba) = None.
Proof.
  destruct (cache_frame Config_default upstream_counting "u" (Some ab) None later)
    as (Hhit & Hslide & _).
  destruct (cache_frame Config_default upstream_counting "u" (Some ab) None noon)
    as (_ & _ & Hframe).
  split; [exact (Hhit (JInt 0) eq_refl)|]. split.
  - refine (proj2 (Hslide 1704110400001000 (JInt 0) 200000000 eq_refl _ _));
      vm_compute; congruence.
  - refine (Hframe (Ok (JInt 0)) (snd (first_call (Some ab))) (cache_key "u" (Some ba))
              eq_refl _).
    discriminate.
Defined.

(** C1 fails on the code: the same two parameters in the two orders derive
    two keys, and the second call, made at once, sends a second GET. *)
Lemma cache_key_order_counterexample :
  (forall k, dict_get k ab = dict_get k ba) /\
  cache_key "u" (Some ab) = "u?{'a': '1', 'b': '2'}" /\
  cache_key "u" (Some ba) = "u?{'b': '2', 'a': '1'}" /\
  cache_key "u" (Some ab) <> cache_key "u" (Some ba) /\
  sent (snd (get_with_cache Config_default upstream_counting "u" (Some ba) None
               (snd (first_call (Some ab))))) = [("u", Some ab); ("u", Some ba)].
Proof.
  split; [|repeat split; discriminate].
  intros k. cbn.
  destruct (String.eqb_spec k "a") as [->|]; [reflexivity|].
  destruct (String.eqb_spec k "b") as [->|]; reflexivity.
Qed.

Lemma cache_key_insertion_order_witness :
  lookup_fresh (cache_key "u" (Some ab)) 300 noon = None /\
  first_call (Some ab) = (Ok (JInt 0), snd (first_call (Some ab))) /\
  0 < 300 * 1000000 /\
  (cache_key "u" (Some ab) = cache_key "u" (Some ba) <-> ab = ba) /\
  sent (snd (get_with_cache Config_default upstream_counting "u" (Some ba) None
               (tick 0 (snd (first_call (Some ab)))))) = [("u", Some ab); ("u", Some ba)].
Proof.
  assert (H1 : lookup_fresh (cache_key "u" (Some ab)) 300 noon = None) by reflexivity.
  assert (H2 : first_call (Some ab) = (Ok (JInt 0), snd (first_call (Some ab)))) by reflexivity.
  assert (H3 : 0 < 300 * 1000000) by lia.
  split; [exact H1|]. split; [exact H2|]. split; [exact H3|].
  destruct (cache_key_insertion_order Config_default upstream_counting "u" ab ba None
              noon _ (JInt 0) 0 H1 H2 H3) as (Hkey & _ & Hother).
  split; [exact Hkey|]. apply Hother; [discriminate | reflexivity].
Defined.

(** C7 fails on the code: [None] and the empty dict derive two keys, and the
    second call, made at once, sends a second GET. *)
Lemma none_and_empty_dict_counterexample :
  cache_key "u" None = "u?None" /\
  cache_key "u" (Some []) = "u?{}" /\
  cache_key "u" None <> cache_key "u" (Some []) /\
  sent (snd (get_with_cache Config_default upstream_counting "u" (Some []) None
               (snd (first_call None)))) = [("u", None); ("u", Some [])].
Proof. repeat split; discriminate. Qed.

Lemma none_and_empty_dict_keys_witness :
  first_call None = (Ok (JInt 0), snd (first_call None)) /\
  cache noon !! cache_key "u" (Some []) = None /\
  cache_key "u" None <> cache_key "u" (Some []) /\
  sent (snd (get_with_cache Config_default upstream_counting "u" (Some []) None
               (tick 0 (snd (first_call None))))) = [("u", None); ("u", Some [])].
Proof.
  assert (H1 : first_call None = (Ok (JInt 0), snd (first_call None))) by reflexivity.
  assert (H2 : cache noon !! cache_key "u" (Some []) = None) by reflexivity.
  split; [exact H1|]. split; [exact H2|].
  destruct (none_and_empty_dict_keys Config_default upstream_counting "u" None
              noon _ (Ok (JInt 0)) 0 H1 H2) as (_ & _ & Hne & Hsent).
  split; [exact Hne | exact Hsent].
Defined.

End CacheFacts.

(** ** The shaping of the readings parameters *)

Module ReadingsFacts.
Import Py Runtime ea_service Spec.

Lemma dict_get_set_eq {V} (k : string) (v : V) (d : dict V) :
  dict_get k (dict_set k v d) = Some v.
Proof.
  induction d as [|[k' v'] d IH]; cbn.
  - rewrite String.eqb_refl. reflexivity.
  - destruct (String.eqb k k') eqn:E; cbn; rewrite E; [reflexivity | exact IH].
Qed.

Lemma dict_get_set_ne {V} (k k' : string) (v : V) (d : dict V) :
  k <> k' -> dict_get k' (dict_set k v d) = dict_get k' d.
Proof.
  intros Hne. induction d as [|[k0 v0] d IH]; cbn.
  - destruct (String.eqb_spec k' k); [congruence | reflexivity].
  - destruct (String.eqb_spec k k0) as [->|]; cbn.
    + destruct (String.eqb_spec k' k0); [congruence | reflexivity].
    + destruct (String.eqb k' k0); [reflexivity | exact IH].
Qed.

(** Assigning a key keeps the keys that were there, in their order. *)
Lemma keys_dict_set_old {V} (k : string) (v : V) (d : dict V) :
  In k (keys d) -> keys (dict_set k v d) = keys d.
Proof.
  induction d as [|[k' v'] d IH]; cbn; [contradiction|].
  destruct (String.eqb_spec k k') as [->|Hne]; cbn; [reflexivity|].
  intros [?|Hin]; [congruence|]. f_equal. apply IH, Hin.
Qed.

Section Readings.

Context {unicode : Unicode}.
Variable config : Config.
Variable utcoffset : Z -> Z.
Variable upstream : Upstream.
Variable station_id : string.

Local Abbreviation run := (get_station_readings config utcoffset upstream station_id).
Local Abbreviation url := (readings_url config station_id).
Local Abbreviation yesterday w :=
  (Datetime.isoformat (local_now utcoffset w - Datetime.timedelta_hours 24)).

(** What the function does: it rewrites the dict it works on into the shaped
    parameters and hands those to [get_with_cache]. *)
Lemma get_station_readings_eq (params : option loc) (w : World) :
  run params w =
  get_with_cache config upstream url
    (Some (shaped (local_now utcoffset w) (supplied params w))) None
    (set_heap (<[target params w := shaped (local_now utcoffset w) (supplied params w)]>
                 (heap w)) w).
Proof.
  unfold get_station_readings, shaped, supplied, target, readings_url, local_now.
  unfold bind at 1. destruct params as [p|]; cbn [ret new_dict].
  - unfold bind at 1. cbn [deref].
    destruct (needs_since (default [] (heap w !! p))) eqn:E.
    + unfold bind at 1. unfold bind at 1. cbn [datetime_now setitem set_heap heap clock].
      unfold bind at 1. cbn [setitem set_heap heap].
      unfold bind at 1. cbn [deref set_heap heap].
      rewrite !lookup_insert_eq, insert_insert_eq. reflexivity.
    + unfold bind at 1. cbn [ret].
      unfold bind at 1. cbn [setitem set_heap heap].
      unfold bind at 1. cbn [deref set_heap heap].
      rewrite !lookup_insert_eq. reflexivity.
  - unfold bind at 1. cbn [deref set_heap heap]. rewrite lookup_insert_eq.
    change (needs_since (default [] (Some []))) with true. cbv iota.
    unfold bind at 1. unfold bind at 1. cbn [datetime_now setitem set_heap heap clock].
    unfold bind at 1. cbn [setitem set_heap heap].
    unfold bind at 1. cbn [deref set_heap heap].
    rewrite !lookup_insert_eq, !insert_insert_eq. reflexivity.
Qed.

Lemma shaped_sorted (now : Datetime.datetime) (d0 : dict string) :
  dict_get "_sorted" (shaped now d0) = Some EmptyString.
Proof. apply dict_get_set_eq. Qed.

Lemma shaped_since (now : Datetime.datetime) (d0 : dict string) :
  needs_since d0 = true ->
  dict_get "since" (shaped now d0) =
    Some (Datetime.isoformat (now - Datetime.timedelta_hours 24)).
Proof.
  intros E. unfold shaped. rewrite E.
  rewrite dict_get_set_ne by discriminate. apply dict_get_set_eq.
Qed.

Lemma shaped_no_since (now : Datetime.datetime) (d0 : dict string) :
  needs_since d0 = false -> shaped now d0 = dict_set "_sorted" EmptyString d0.
Proof. intros E. unfold shaped. rewrite E. reflexivity. Qed.

(** A key that is absent or maps to the empty string counts as not given. *)
Lemma falsy_get (o : option string) : o = None \/ o = Some EmptyString -> truthy_get o = false.
Proof. intros [-> | ->]; reflexivity. Qed.

Lemma truthy_get_Some (v : string) : v <> EmptyString -> truthy_get (Some v) = true.
Proof. destruct v; [congruence | reflexivity]. Qed.

(** C5, as the code has it. The call is [get_with_cache] on the readings
    url with the shaped parameters, so every GET it sends carries them.
    [_sorted] is always there with the empty string; when none of [today],
    [since], [date] is among the parameters supplied, [since] is the local
    time less 24 hours in ISO format; when [date] is supplied with a value
    that is not empty, [_sorted] is the only parameter set and [since] is as
    the caller gave it. *)
Theorem readings_normalization (params : option loc) (w : World) :
  exists d h,
    run params w = get_with_cache config upstream url (Some d) None (set_heap h w) /\
    (sent (snd (run params w)) = sent w \/
     sent (snd (run params w)) = sent w ++ [(url, Some d)]) /\
    dict_get "_sorted" d = Some EmptyString /\
    (dict_get "today" (supplied params w) = None ->
     dict_get "since" (supplied params w) = None ->
     dict_get "date" (supplied params w) = None ->
     dict_get "since" d = Some (yesterday w)) /\
    (forall v, dict_get "date" (supplied params w) = Some v -> v <> EmptyString ->
       d = dict_set "_sorted" EmptyString (supplied params w) /\
       dict_get "since" d = dict_get "since" (supplied params w)).
Proof.
  eexists _, _. split; [apply get_station_readings_eq|].
  rewrite get_station_readings_eq. split; [|split; [|split]].
  - destruct (get_with_cache _ _ _ _ _ _) as [r w'] eqn:H.
    apply CacheFacts.call_sent in H. exact H.
  - apply shaped_sorted.
  - intros H1 H2 H3. apply shaped_since. unfold needs_since. rewrite H1, H2, H3. reflexivity.
  - intros v Hv Hne.
    assert (E : needs_since (supplied params w) = false).
    { unfold needs_since. rewrite Hv, (truthy_get_Some v Hne), !andb_false_r. reflexivity. }
    rewrite (shaped_no_since _ _ E). split; [reflexivity|].
    apply dict_get_set_ne. discriminate.
Qed.

(** C9. Injection goes by the truth of the values: when each of [today],
    [since], [date] is absent or maps to the empty string, [since] is set to
    the local time less 24 hours, over a [since] the caller gave; and
    [_sorted] is set to the empty string whatever the caller gave. The dict
    the function works on is rewritten to these parameters. *)
Theorem injection_by_truthiness (params : option loc) (w : World) :
  exists d,
    run params w =
      get_with_cache config upstream url (Some d) None
        (set_heap (<[target params w := d]> (heap w)) w) /\
    heap (snd (run params w)) !! target params w = Some d /\
    dict_get "_sorted" d = Some EmptyString /\
    ((forall k, In k ["today"; "since"; "date"] ->
        dict_get k (supplied params w) = None \/
        dict_get k (supplied params w) = Some EmptyString) ->
     dict_get "since" d = Some (yesterday w)).
Proof.
  eexists. split; [apply get_station_readings_eq|]. split.
  { rewrite get_station_readings_eq.
    destruct (get_with_cache _ _ _ _ _ _) as [r w'] eqn:H.
    apply CacheFacts.call_heap in H. cbn [snd]. rewrite H. apply lookup_insert_eq. }
  split; [apply shaped_sorted|].
  intros H. apply shaped_since. unfold needs_since.
  rewrite !falsy_get; [reflexivity | apply H; cbn; auto ..].
Qed.

(** C8, as the code has it. The shaping is written into the dict the caller
    passed: after the call that dict holds the shaped parameters, with
    [_sorted] and, where injected, [since]; the other dicts are as before.
    Only without a dict from the caller is a new one made, and then no
    dict that existed is changed. *)
Theorem readings_shape_in_place (p : loc) (d0 : dict string) (w : World) :
  heap w !! p = Some d0 ->
  heap (snd (run (Some p) w)) !! p = Some (shaped (local_now utcoffset w) d0) /\
  dict_get "_sorted" (shaped (local_now utcoffset w) d0) = Some EmptyString /\
  (needs_since d0 = true ->
     dict_get "since" (shaped (local_now utcoffset w) d0) = Some (yesterday w)) /\
  (forall p', p' <> p -> heap (snd (run (Some p) w)) !! p' = heap w !! p') /\
  (forall p' x, heap w !! p' = Some x -> heap (snd (run None w)) !! p' = Some x).
Proof.
  intros Hp. rewrite !get_station_readings_eq.
  destruct (get_with_cache _ _ _ _ _ (set_heap (<[target (Some p) w := _]> _) w))
    as [r w'] eqn:H.
  apply CacheFacts.call_heap in H.
  destruct (get_with_cache _ _ _ _ _ (set_heap (<[target None w := _]> _) w))
    as [r0 w0] eqn:H0.
  apply CacheFacts.call_heap in H0.
  cbn [snd]. rewrite H, H0. cbn [set_heap heap target supplied]. rewrite Hp. cbn [default].
  split; [apply lookup_insert_eq|]. split; [apply shaped_sorted|].
  split; [apply shaped_since|]. split.
  - intros p' Hne. apply lookup_insert_ne. congruence.
  - intros p' x Hx. rewrite lookup_insert_ne; [exact Hx|].
    intros <-. apply (is_fresh (dom (heap w))). apply elem_of_dom. eauto.
Qed.

End Readings.

(** *** The properties on the sample worlds *)

Import Sample.

#[local] Existing Instance latin1.

Lemma readings_normalization_witness :
  (exists d,
     sent (snd (sample_readings (Some 1%positive) (noon_with [("parameter", "level")]))) =
       [(sample_url, Some d)] /\
     dict_get "_sorted" d = Some EmptyString /\
     dict_get "since" d = Some "2023-12-31T12:00:00") /\
  (exists d,
     sent (snd (sample_readings (Some 1%positive) (noon_with [("date", "2024-01-01")]))) =
       [(sample_url, Some d)] /\
     d = [("date", "2024-01-01"); ("_sorted", EmptyString)] /\
     dict_get "since" d = None).
Proof.
  split.
  - destruct (readings_normalization Config_default utc upstream_counting "1029TH"
                (Some 1%positive) (noon_with [("parameter", "level")]))
      as (d & h & Hrun & Hsent & Hsorted & Hsince & _).
    exists d. split; [|split].
    + destruct Hsent as [Hsent | Hsent]; [|exact Hsent].
      exfalso. vm_compute in Hsent. discriminate Hsent.
    + exact Hsorted.
    + exact (Hsince eq_refl eq_refl eq_refl).
  - destruct (readings_normalization Config_default utc upstream_counting "1029TH"
                (Some 1%positive) (noon_with [("date", "2024-01-01")]))
      as (d & h & Hrun & Hsent & _ & _ & Hdate).
    assert (Hne : "2024-01-01" <> EmptyString) by discriminate.
    destruct (Hdate "2024-01-01" eq_refl Hne) as [Hd Hnone].
    exists d. split; [|split].
    + destruct Hsent as [Hsent | Hsent]; [|exact Hsent].
      exfalso. vm_compute in Hsent. discriminate Hsent.
    + exact Hd.
    + exact Hnone.
Defined.

(** C5 fails on the code for a [date] that is supplied empty: [since] is
    injected all the same. *)
Lemma empty_date_counterexample :
  dict_get "date" (supplied (Some 1%positive) (noon_with [("date", EmptyString)]))
    = Some EmptyString /\
  sent (snd (sample_readings (Some 1%positive) (noon_with [("date", EmptyString)]))) =
    [(sample_url,
      Some [("date", EmptyString); ("since", "2023-12-31T12:00:00");
            ("_sorted", EmptyString)])].
Proof. split; reflexivity. Qed.

Lemma injection_by_truthiness_witness :
  exists d,
    sample_readings (Some 1%positive)
      (noon_with [("since", EmptyString); ("_sorted", "desc")]) =
      get_with_cache Config_default upstream_counting sample_url (Some d) None
        (set_heap {[ 1%positive := d ]}
           (noon_with [("since", EmptyString); ("_sorted", "desc")])) /\
    dict_get "_sorted" d = Some EmptyString /\
    dict_get "since" d = Some "2023-12-31T12:00:00".
Proof.
  destruct (injection_by_truthiness Config_default utc upstream_counting "1029TH"
              (Some 1%positive) (noon_with [("since", EmptyString); ("_sorted", "desc")]))
    as (d & Hrun & _ & Hsorted & Hsince).
  exists d. split; [|split].
  - unfold sample_readings. rewrite Hrun. reflexivity.
  - exact Hsorted.
  - apply Hsince. intros k [<- | [<- | [<- | []]]]; vm_compute; auto.
Defined.

(** C8 fails on the code: the dict the caller passed is not what it was. *)
Lemma caller_mapping_counterexample :
  heap (noon_with [("parameter", "level")]) !! 1%positive = Some [("parameter", "level")] /\
  heap (snd (sample_readings (Some 1%positive) (noon_with [("parameter", "level")])))
    !! 1%positive =
    Some [("parameter", "level"); ("since", "2023-12-31T12:00:00"); ("_sorted", EmptyString)] /\
  heap (snd (sample_readings (Some 1%positive) (noon_with [("parameter", "level")])))
    !! 1%positive <> heap (noon_with [("parameter", "level")]) !! 1%positive.
Proof. repeat split; discriminate. Qed.

Lemma readings_shape_in_place_witness :
  heap (noon_with [("parameter", "level")]) !! 1%positive = Some [("parameter", "level")] /\
  heap (snd (sample_readings (Some 1%positive) (noon_with [("parameter", "level")])))
    !! 1%positive =
    Some [("parameter", "level"); ("since", "2023-12-31T12:00:00"); ("_sorted", EmptyString)] /\
  heap (snd (sample_readings None (noon_with [("parameter", "level")]))) !! 1%positive =
    Some [("parameter", "level")].
Proof.
  assert (H : heap (noon_with [("parameter", "level")]) !! 1%positive
              = Some [("parameter", "level")]) by reflexivity.
  destruct (readings_shape_in_place Config_default utc upstream_counting "1029TH"
              1%positive [("parameter", "level")] (noon_with [("parameter", "level")]) H)
    as (Hp & _ & _ & _ & Hnew).
  split; [exact H|]. split; [exact Hp|]. exact (Hnew 1%positive _ H).
Defined.

End ReadingsFacts.

(** ** The station view *)

Module RoutesFacts.
Import Py Runtime ea_service routes Spec.

(** C6. The station view asks [get_stations] for the stations whose
    [stationReference] is the id, which sends at most the one GET with that
    filter; when the result has a list of items that is not empty the view
    answers with the first item and status 200, and when the list is empty it
    answers 404 with the body [{"error": "Station not found"}]. *)
Theorem station_lookup {unicode : Unicode} (config : Config) (upstream : Upstream) (station_id : string)
    (w w' : World) (data : json) :
  get_stations config upstream (Some [("stationReference", station_id)]) w = (Ok data, w') ->
  (sent w' = sent w \/
   sent w' = sent w ++ [(stations_url config, Some [("stationReference", station_id)])]) /\
  (forall obj first rest,
     data = JDict obj -> dict_get "items" obj = Some (JList (first :: rest)) ->
     station config upstream station_id w = (Ok (first, 200), w')) /\
  (forall obj,
     data = JDict obj -> dict_get "items" obj = Some (JList []) ->
     station config upstream station_id w =
       (Ok (JDict [("error", JStr "Station not found")], 404), w')).
Proof.
  intros H. split; [|split].
  - unfold get_stations in H. apply CacheFacts.call_sent in H. exact H.
  - intros obj first rest -> Hitems.
    unfold station, bind. rewrite H. cbn. rewrite Hitems. reflexivity.
  - intros obj -> Hitems.
    unfold station, bind. rewrite H. cbn. rewrite Hitems. reflexivity.
Qed.

Import Sample.

#[local] Existing Instance latin1.

Lemma station_lookup_witness :
  stations_of "1029TH" =
    (Ok (JDict [("items", JList [thames])]), snd (stations_of "1029TH")) /\
  station Config_default upstream_stations "1029TH" noon =
    (Ok (thames, 200), snd (stations_of "1029TH")) /\
  stations_of "UNKNOWN123" =
    (Ok (JDict [("items", JList [])]), snd (stations_of "UNKNOWN123")) /\
  station Config_default upstream_stations "UNKNOWN123" noon =
    (Ok (JDict [("error", JStr "Station not found")], 404), snd (stations_of "UNKNOWN123")).
Proof.
  assert (H1 : stations_of "1029TH" =
               (Ok (JDict [("items", JList [thames])]), snd (stations_of "1029TH")))
    by reflexivity.
  assert (H2 : stations_of "UNKNOWN123" =
               (Ok (JDict [("items", JList [])]), snd (stations_of "UNKNOWN123")))
    by reflexivity.
  destruct (station_lookup Config_default upstream_stations "1029TH" noon _ _ H1)
    as (_ & Hfirst & _).
  destruct (station_lookup Config_default upstream_stations "UNKNOWN123" noon _ _ H2)
    as (_ & _ & Hnone).
  split; [exact H1|]. split; [exact (Hfirst _ thames [] eq_refl eq_refl)|].
  split; [exact H2|]. exact (Hnone _ eq_refl eq_refl).
Defined.

End RoutesFacts.

(** ** The key of a request determines the request *)

Module KeyFacts.
Import Py Runtime ea_service Spec Text.

Lemma chars_app (s t : string) : chars (s +:+ t) = chars s ++ chars t.
Proof. induction s as [|c s IH]; [reflexivity|]. cbn. rewrite <- IH. reflexivity. Qed.

Lemma chars_inj (s t : string) : chars s = chars t -> s = t.
Proof.
  intros H. rewrite <- (string_of_list_ascii_of_string s), H.
  apply string_of_list_ascii_of_string.
Qed.

Lemma guardedb_app (q : ascii) (a b : list ascii) :
  guardedb q a = true -> guardedb q b = true -> guardedb q (a ++ b) = true.
Proof.
  intros Ha Hb. induction a as [|c a IH]; [exact Hb|].
  cbn in Ha |- *. apply andb_true_iff in Ha as [Hc Ha].
  rewrite (IH Ha), andb_true_r.
  destruct a as [|b' a']; [|exact Hc].
  rewrite orb_false_r in Hc. cbn [app]. rewrite Hc. reflexivity.
Qed.

Lemma guardedb_escape_char (q c : ascii) :
  q = squote \/ q = dquote -> guardedb q (rev (chars (escape_char q c))) = true.
Proof.
  intros [-> | ->]; destruct c as [[] [] [] [] [] [] [] []]; reflexivity.
Qed.

(** A text without the quote is guarded. *)
Lemma guardedb_without (q : ascii) (l : list ascii) :
  Forall (fun c => c <> q) l -> guardedb q l = true.
Proof.
  induction 1 as [|c l Hc _ IH]; [reflexivity|].
  cbn. rewrite IH, andb_true_r.
  destruct (Ascii.eqb_spec c q); [contradiction | reflexivity].
Qed.

Lemma hex_digit_not_quote (q : ascii) (x : N) :
  q = squote \/ q = dquote -> hex_digit (x mod 16) <> q.
Proof.
  intros Hq. pose proof (PyFacts.mod16 x) as H. generalize dependent (x mod 16)%N.
  intros y Hy. destruct y as [|p].
  - destruct Hq as [-> | ->]; discriminate.
  - do 4 (destruct p as [p|p|]; try (destruct Hq as [-> | ->]; discriminate));
      exfalso; lia.
Qed.

Lemma hex_digits_not_quote (q : ascii) (w : nat) (n : N) :
  q = squote \/ q = dquote -> Forall (fun c => c <> q) (chars (hex_digits w n)).
Proof.
  intros Hq. revert n. induction w as [|w IH]; intros n; [constructor|].
  cbn [hex_digits]. rewrite chars_app. apply Forall_app. split; [apply IH|].
  constructor; [apply hex_digit_not_quote, Hq | constructor].
Qed.

(** The escape of a code point has no quote in it. *)
Lemma guardedb_escape_code (q : ascii) (cp : N) :
  q = squote \/ q = dquote -> guardedb q (rev (chars (escape_code cp))) = true.
Proof.
  intros Hq. apply guardedb_without, Forall_rev. unfold escape_code.
  cbn [list_ascii_of_string]. constructor; [destruct Hq as [-> | ->]; discriminate|].
  destruct (_ <? _)%N; [|destruct (_ <? _)%N]; cbn [list_ascii_of_string];
    (constructor; [destruct Hq as [-> | ->]; discriminate | apply hex_digits_not_quote, Hq]).
Qed.

Lemma guardedb_high (q c : ascii) :
  q = squote \/ q = dquote -> (128 <= N_of_ascii c)%N ->
  guardedb q (rev (chars (String c EmptyString))) = true.
Proof.
  intros Hq Hc. cbn. destruct (Ascii.eqb_spec c q) as [->|_]; [|reflexivity].
  apply PyFacts.quote_low in Hq. lia.
Qed.

Lemma guardedb_escape_from {unicode : Unicode} (q : ascii) (s : string) (k : nat) :
  q = squote \/ q = dquote -> guardedb q (rev (chars (escape_from k q s))) = true.
Proof.
  intros Hq. revert k. induction s as [|c s IH]; intros k; [reflexivity|].
  destruct k as [|k]; [|apply IH].
  cbn [escape_from]. unfold escape_step.
  destruct (N.ltb_spec (N_of_ascii c) 128) as [Hlow|Hhigh].
  - rewrite chars_app, rev_app_distr.
    apply guardedb_app; [apply IH | apply guardedb_escape_char, Hq].
  - destruct (utf8_head c s) as [[k' cp]|]; [destruct (isprintable cp)|];
      rewrite chars_app, rev_app_distr;
      (apply guardedb_app;
       [apply IH | first [apply guardedb_high; assumption | apply guardedb_escape_code, Hq]]).
Qed.

Lemma guardedb_escape {unicode : Unicode} (q : ascii) (s : string) :
  q = squote \/ q = dquote -> guardedb q (rev (chars (escape q s))) = true.
Proof. intros Hq. apply guardedb_escape_from, Hq. Qed.

(** Two guarded texts that are each followed by the quote and then by a
    character other than the backslash end at the same place. *)
Lemma guarded_align (q c c' : ascii) (e e' r r' : list ascii) :
  guardedb q e = true -> guardedb q e' = true ->
  c <> backslash -> c' <> backslash ->
  e ++ q :: c :: r = e' ++ q :: c' :: r' ->
  e = e' /\ c :: r = c' :: r'.
Proof.
  revert e'. induction e as [|x e IH]; intros [|x' e'] He He' Hc Hc' H.
  - cbn in H. injection H as -> ->. auto.
  - exfalso. cbn in H. injection H as <- H.
    cbn in He'. rewrite Ascii.eqb_refl in He'. cbn in He'.
    destruct e' as [|b e']; [discriminate|].
    apply andb_true_iff in He' as [Hb _]. apply Ascii.eqb_eq in Hb as ->.
    cbn in H. injection H as -> _. congruence.
  - exfalso. cbn in H. injection H as -> H.
    cbn in He. rewrite Ascii.eqb_refl in He. cbn in He.
    destruct e as [|b e]; [discriminate|].
    apply andb_true_iff in He as [Hb _]. apply Ascii.eqb_eq in Hb as ->.
    cbn in H. injection H as <- _. congruence.
  - cbn in H. injection H as -> H.
    cbn in He, He'. apply andb_true_iff in He as [_ He], He' as [_ He'].
    destruct (IH e' He He' Hc Hc' H) as [-> Heq]. auto.
Qed.

Ltac flat := repeat first
  [ rewrite <- (assoc_L (++)) | rewrite app_nil_r | progress cbn [app] ].

Ltac flat_in H := repeat first
  [ rewrite <- (assoc_L (++)) in H | rewrite app_nil_r in H | progress cbn [app] in H ].

Section Key.

Context {unicode : Unicode}.

Lemma escape_inj (q : ascii) (a b : string) :
  q = squote \/ q = dquote -> escape q a = escape q b -> a = b.
Proof.
  intros Hq H.
  pose proof (PyFacts.unescape_escape q a EmptyString Hq) as Ha.
  pose proof (PyFacts.unescape_escape q b EmptyString Hq) as Hb.
  rewrite H in Ha. congruence.
Qed.

Lemma rev_chars_repr (a : string) :
  rev (chars (repr a)) =
  quote_of a :: rev (chars (escape (quote_of a) a)) ++ [quote_of a].
Proof.
  unfold repr. cbv zeta. cbn [list_ascii_of_string rev].
  rewrite chars_app, rev_app_distr. reflexivity.
Qed.

Lemma quote_not_backslash (a : string) : quote_of a <> backslash.
Proof. destruct (PyFacts.quote_of_cases a) as [-> | ->]; discriminate. Qed.

(** Two quoted strings that end at the same place, each after a character
    other than the backslash, are the same string at the same place. *)
Lemma repr_align (a b : string) (c c' : ascii) (A B : list ascii) :
  c <> backslash -> c' <> backslash ->
  A ++ c :: chars (repr a) = B ++ c' :: chars (repr b) ->
  a = b /\ A = B /\ c = c'.
Proof.
  intros Hc Hc' H. apply (f_equal (@rev ascii)) in H.
  rewrite !rev_app_distr in H. cbn [rev] in H.
  rewrite !rev_chars_repr in H.
  rewrite <- !(assoc_L (++)) in H. cbn [app] in H.
  rewrite <- !(assoc_L (++)) in H. cbn [app] in H.
  injection H as Hq H.
  rewrite <- Hq in H.
  apply guarded_align in H as [He Hr]; try assumption;
    try (apply guardedb_escape, PyFacts.quote_of_cases).
  injection Hr as -> Hr. apply rev_inj in Hr as ->.
  apply rev_inj, chars_inj in He.
  apply escape_inj in He; [auto | apply PyFacts.quote_of_cases].
Qed.

Lemma chars_join_cons (k v : string) (d : dict string) :
  chars (join_items ((k, v) :: d)) =
  chars (repr k) ++ [":"; " "]%char ++ chars (repr v) ++
  match d with [] => [] | _ :: _ => [","; " "]%char ++ chars (join_items d) end.
Proof.
  cbn [join_items]. rewrite !chars_app. destruct d; [|rewrite chars_app]; reflexivity.
Qed.

Lemma chars_join_snoc (d : dict string) (k v : string) :
  chars (join_items (d ++ [(k, v)])) =
  match d with [] => [] | _ :: _ => chars (join_items d) ++ [","; " "]%char end ++
  chars (repr k) ++ [":"; " "]%char ++ chars (repr v).
Proof.
  induction d as [|[k0 v0] d IH].
  - cbn [app]. rewrite chars_join_cons. flat. reflexivity.
  - change (((k0, v0) :: d) ++ [(k, v)]) with ((k0, v0) :: (d ++ [(k, v)])).
    rewrite !chars_join_cons, IH.
    destruct d as [|i d]; flat; reflexivity.
Qed.

(** A printed dict with a last item: what leads to the item, the key, the
    colon and the value. *)
Lemma before_brace_snoc (d : dict string) (k v : string) :
  before_brace (d ++ [(k, v)]) =
  (fst (lead d) ++ snd (lead d) :: chars (repr k)) ++ ":"%char :: " "%char :: chars (repr v).
Proof.
  unfold before_brace. rewrite chars_join_snoc.
  destruct d as [|i d]; cbn [lead fst snd before_brace]; flat; reflexivity.
Qed.

Lemma lead_not_backslash (d : dict string) : snd (lead d) <> backslash.
Proof. destruct d; discriminate. Qed.

(** The text of a dict with a last item ends with a quote. *)
Lemma before_brace_snoc_last (d : dict string) (k v : string) :
  exists q rest, (q = squote \/ q = dquote) /\
    rev (before_brace (d ++ [(k, v)])) = q :: rest.
Proof.
  rewrite before_brace_snoc.
  change (":"%char :: " "%char :: chars (repr v)) with ([":"%char] ++ " "%char :: chars (repr v)).
  rewrite !rev_app_distr. cbn [rev]. rewrite rev_chars_repr. cbn [app].
  eexists _, _. split; [apply PyFacts.quote_of_cases | reflexivity].
Qed.

(** No printed dict is the end of a longer printed dict. *)
Lemma before_brace_suffix (d2 d1 : dict string) (X : list ascii) :
  before_brace d1 = X ++ before_brace d2 -> X = [].
Proof.
  revert d1 X. induction d2 as [|[k2 v2] d2 IH] using rev_ind; intros d1 X H.
  - destruct d1 as [|[k1 v1] d1 _] using rev_ind.
    + apply (List.app_inv_tail (before_brace [])). symmetry. exact H.
    + exfalso. destruct (before_brace_snoc_last d1 k1 v1) as (q & rest & Hq & Hrev).
      apply (f_equal (@rev ascii)) in H. rewrite Hrev, rev_app_distr in H.
      cbn in H. destruct Hq as [-> | ->]; discriminate H.
  - destruct d1 as [|[k1 v1] d1 _] using rev_ind.
    + exfalso. destruct (before_brace_snoc_last d2 k2 v2) as (q & rest & Hq & Hrev).
      apply (f_equal (@rev ascii)) in H. rewrite rev_app_distr, Hrev in H.
      cbn in H. destruct Hq as [-> | ->]; discriminate H.
    + rewrite !before_brace_snoc in H.
      assert (Hv : ((fst (lead d1) ++ snd (lead d1) :: chars (repr k1)) ++ [":"%char])
                     ++ " "%char :: chars (repr v1) =
                   ((X ++ fst (lead d2) ++ snd (lead d2) :: chars (repr k2)) ++ [":"%char])
                     ++ " "%char :: chars (repr v2)).
      { flat. flat_in H. exact H. }
      apply repr_align in Hv as (-> & Hk & _); try discriminate.
      apply List.app_inv_tail in Hk. rewrite (assoc_L (++) X) in Hk.
      apply repr_align in Hk as (-> & Hl & Hc); try apply lead_not_backslash.
      destruct d1 as [|i1 d1], d2 as [|i2 d2]; try discriminate Hc.
      * cbn in Hl. destruct X; [reflexivity | discriminate Hl].
      * cbn [lead fst] in Hl. rewrite (assoc_L (++) X) in Hl.
        apply List.app_inv_tail in Hl. apply IH in Hl. exact Hl.
Qed.

Lemma chars_str_items (d : dict string) :
  chars (str_items d) = chars (join_items d) ++ ["}"%char].
Proof.
  induction d as [|[k v] d IH]; [reflexivity|].
  rewrite PyFacts.str_items_cons, chars_join_cons, !chars_app.
  destruct d as [|i d].
  - flat. reflexivity.
  - unfold after_item. rewrite chars_app, IH. flat. reflexivity.
Qed.

(** No printed parameter value is the end of a longer one. *)
Lemma str_params_suffix (p1 p2 : option (dict string)) (X : list ascii) :
  chars (str_params p1) = X ++ chars (str_params p2) -> X = [].
Proof.
  assert (Hbrace : forall d, chars (str_params (Some d)) = before_brace d ++ ["}"%char]).
  { intros d. unfold str_params, before_brace.
    rewrite chars_app, chars_str_items. reflexivity. }
  destruct p1 as [d1|], p2 as [d2|]; rewrite ?Hbrace; intros H.
  - rewrite (assoc_L (++)) in H. apply List.app_inv_tail in H.
    apply before_brace_suffix in H. exact H.
  - exfalso. apply (f_equal (@rev ascii)) in H. rewrite !rev_app_distr in H.
    cbn in H. discriminate H.
  - exfalso. apply (f_equal (@rev ascii)) in H. rewrite !rev_app_distr in H.
    cbn in H. discriminate H.
  - apply (List.app_inv_tail (chars (str_params None))). symmetry. exact H.
Qed.

(** The key of a request gives back its url and its parameters. *)
Lemma cache_key_pair_inj (u1 u2 : string) (p1 p2 : option (dict string)) :
  cache_key u1 p1 = cache_key u2 p2 -> u1 = u2 /\ p1 = p2.
Proof.
  unfold cache_key. intros H. apply (f_equal chars) in H.
  rewrite !chars_app in H. cbn [list_ascii_of_string app] in H.
  apply app_eq_app in H as [l [[Hu Hs] | [Hu Hs]]].
  - destruct l as [|c l].
    + rewrite app_nil_r in Hu. apply chars_inj in Hu as ->.
      injection Hs as Hs. apply chars_inj, PyFacts.str_params_inj in Hs. auto.
    + exfalso. injection Hs as <- Hs.
      change (l ++ "?"%char :: chars (str_params p1))
        with (l ++ ["?"%char] ++ chars (str_params p1)) in Hs.
      rewrite (assoc_L (++)) in Hs. apply str_params_suffix in Hs.
      destruct l; discriminate Hs.
  - destruct l as [|c l].
    + rewrite app_nil_r in Hu. apply chars_inj in Hu as ->.
      injection Hs as Hs. apply chars_inj, PyFacts.str_params_inj in Hs. auto.
    + exfalso. injection Hs as <- Hs.
      change (l ++ "?"%char :: chars (str_params p2))
        with (l ++ ["?"%char] ++ chars (str_params p2)) in Hs.
      rewrite (assoc_L (++)) in Hs. apply str_params_suffix in Hs.
      destruct l; discriminate Hs.
Qed.

End Key.

End KeyFacts.

(** ** What [get_with_cache] keeps, returns and raises *)

Module ServiceFacts.
Import Py Runtime ea_service Spec Session.

Lemma answered_more (upstream : Upstream) (log more : list Request) (q : Request)
    (data : json) :
  answered upstream log q data -> answered upstream (log ++ more) q data.
Proof.
  intros (h & rest & -> & Hd). exists h, (rest ++ more).
  split; [|exact Hd]. rewrite <- !(assoc_L (++)). reflexivity.
Qed.

Section Call.

Context {unicode : Unicode}.
Variable config : Config.
Variable upstream : Upstream.
Variable url : string.
Variable params : option (dict string).
Variable timeout : option Z.

Local Abbreviation ttl := (timeout_of config timeout).
Local Abbreviation key := (cache_key url params).
Local Abbreviation call := (get_with_cache config upstream url params timeout).
Local Abbreviation reply w := (upstream (sent w) (url, params)).
Local Abbreviation after := (after_get upstream url params).

(** Every way a call can end, one goal each. *)
Ltac outcomes w E :=
  destruct (lookup_fresh key ttl w) as [?data|] eqn:E;
  [ rewrite (CacheFacts.call_fresh config upstream url params timeout w _ E)
  | rewrite (CacheFacts.call_stale config upstream url params timeout w E);
    destruct (outcome (upstream (sent w) (url, params))) as [?response|] eqn:?;
    [ destruct ((400 <=? status_code response) && (status_code response <? 600)) eqn:?;
      [ | destruct (body response) as [?data|] eqn:? ] | ] ].

(** X5. A call raises only after it has sent its GET, and then nothing is
    stored: the cache and the heap are as before, the log has grown by the
    one request, and the exception is [ConnectionError] when no response
    came, [HTTPError] with the status when the status is from 400 to 599,
    and [JSONDecodeError] when the status passes and the body is not JSON. *)
Theorem call_failure (w w' : World) (e : exn) :
  call w = (Raise e, w') ->
  cache w' = cache w /\ heap w' = heap w /\
  sent w' = sent w ++ [(url, params)] /\
  lookup_fresh key ttl w = None /\
  ((e = ConnectionError /\ outcome (reply w) = None) \/
   exists response, outcome (reply w) = Some response /\
     ((e = HTTPError (status_code response) /\ 400 <= status_code response < 600) \/
      (e = JSONDecodeError /\ ~ (400 <= status_code response < 600) /\
       body response = None))).
Proof.
  outcomes w E; intros H; simplify_eq; repeat split; try reflexivity.
  - right. exists response. split; [reflexivity|]. left. split; [reflexivity|].
    apply CacheFacts.http_error_status. assumption.
  - right. exists response. split; [reflexivity|]. right. split; [reflexivity|].
    split; [|assumption]. rewrite CacheFacts.http_error_status. congruence.
  - left. auto.
Qed.

(** X6. A call returns [v] exactly when the cache holds [v] fresh under its
    key, or holds nothing fresh and the GET brings [v]. *)
Theorem call_success_iff (w : World) (v : json) :
  (exists w', call w = (Ok v, w')) <->
  lookup_fresh key ttl w = Some v \/
  (lookup_fresh key ttl w = None /\ data_reply (reply w) v).
Proof.
  split.
  - intros [w' H]. revert H. outcomes w E; intros H; simplify_eq.
    + left. reflexivity.
    + right. split; [reflexivity|]. exists response. split; [assumption|].
      split; [|assumption]. rewrite CacheFacts.http_error_status. congruence.
  - intros [E | [E Hd]].
    + eexists. apply CacheFacts.call_fresh, E.
    + eexists. apply (CacheFacts.call_data _ _ _ _ _ _ _ E Hd).
Qed.

(** X7. After a call that returned [v] the cache holds [v] under the key of
    the call, stamped with the time of the return or less than the timeout
    before it. *)
Theorem returned_is_cached (w w' : World) (v : json) :
  call w = (Ok v, w') ->
  exists t, cache w' !! key = Some (t, v) /\
    (t = clock w' \/ clock w' - t < ttl * 1000000).
Proof.
  outcomes w E; intros H; simplify_eq.
  - apply CacheFacts.lookup_fresh_Some in E as (t & E & Hage). eauto.
  - exists (clock (after w)). cbn. rewrite lookup_insert_eq. auto.
Qed.

(** X8. The cache only grows: a call removes no key, and adds at most the
    key of the call. *)
Theorem cache_only_grows (w w' : World) (r : result json) :
  call w = (r, w') ->
  (forall k, is_Some (cache w !! k) -> is_Some (cache w' !! k)) /\
  (forall k, is_Some (cache w' !! k) -> is_Some (cache w !! k) \/ k = key) /\
  (size (cache w) <= size (cache w') <= size (cache w) + 1)%nat.
Proof.
  outcomes w E; intros H; simplify_eq; cbn [after_get set_cache set_clock set_sent cache];
    try (split; [auto | split; [auto | lia]]).
  split; [|split].
  - intros k Hk. destruct (decide (k = key)) as [->|Hne].
    + rewrite lookup_insert_eq. eauto.
    + rewrite lookup_insert_ne by congruence. exact Hk.
  - intros k Hk. destruct (decide (k = key)) as [->|Hne]; [auto|].
    rewrite lookup_insert_ne in Hk by congruence. auto.
  - rewrite map_size_insert. destruct (cache w !! key); unfold id; lia.
Qed.

(** X9. With a timeout of zero or less nothing is ever fresh: as long as no
    entry is stamped later than the clock, every call sends its GET. *)
Theorem no_timeout_no_hit (w : World) :
  cache_wf w -> ttl <= 0 ->
  lookup_fresh key ttl w = None /\
  sent (snd (call w)) = sent w ++ [(url, params)].
Proof.
  intros Hwf Httl.
  assert (E : lookup_fresh key ttl w = None).
  { apply CacheFacts.lookup_fresh_None. intros t x Hx. specialize (Hwf _ _ _ Hx). lia. }
  split; [exact E | apply CacheFacts.call_sent_stale, E].
Qed.

(** A call keeps the cache sound, and what it returns is an answer to a GET
    for its request. *)
Lemma call_sound (w w' : World) (r : result json) :
  cache_sound upstream w -> call w = (r, w') ->
  cache_sound upstream w' /\
  (forall v, r = Ok v -> answered upstream (sent w') (url, params) v).
Proof.
  intros Hs.
  assert (Hafter : cache_sound upstream (after w)).
  { intros u p t x Hx. apply answered_more, (Hs u p t x Hx). }
  outcomes w E; intros H; simplify_eq; try (split; [assumption | discriminate]).
  - split; [assumption|]. intros v [= <-].
    apply CacheFacts.lookup_fresh_Some in E as (t & E & _). apply (Hs _ _ _ _ E).
  - assert (Hnew : answered upstream (sent (after w)) (url, params) data).
    { exists (sent w), []. split; [reflexivity|].
      exists response. split; [assumption|]. split; [|assumption].
      rewrite CacheFacts.http_error_status. congruence. }
    split.
    + intros u p t x. cbn [set_cache cache sent].
      destruct (decide (cache_key u p = key)) as [Heq|Hne].
      * rewrite Heq, lookup_insert_eq. intros [= <- <-].
        apply KeyFacts.cache_key_pair_inj in Heq as [-> ->]. exact Hnew.
      * rewrite lookup_insert_ne by congruence. apply Hafter.
    + intros v [= <-]. exact Hnew.
Qed.

End Call.

(** X1. The key of a request determines the request: two calls use the same
    cache entry exactly when they have the same url and the same parameters,
    item for item in the same order. *)
Theorem cache_key_injective {unicode : Unicode} (u1 u2 : string) (p1 p2 : option (dict string)) :
  cache_key u1 p1 = cache_key u2 p2 <-> u1 = u2 /\ p1 = p2.
Proof.
  split; [apply KeyFacts.cache_key_pair_inj | intros [-> ->]; reflexivity].
Qed.

Lemma string_app_inv_tail (s t u : string) : s +:+ u = t +:+ u -> s = t.
Proof.
  intros H. apply (f_equal Text.chars) in H. rewrite !KeyFacts.chars_app in H.
  apply List.app_inv_tail, KeyFacts.chars_inj in H. exact H.
Qed.

(** X2. The stations and the readings of the stations never share a cache
    entry: the key of a readings request gives back the station, and no
    stations request has the key of a readings request. *)
Theorem resources_do_not_share {unicode : Unicode} (config : Config) (a b : string)
    (p1 p2 : option (dict string)) :
  (cache_key (readings_url config a) p1 = cache_key (readings_url config b) p2 ->
   a = b /\ p1 = p2) /\
  cache_key (stations_url config) p1 <> cache_key (readings_url config a) p2.
Proof.
  unfold readings_url, stations_url. split.
  - intros H. apply KeyFacts.cache_key_pair_inj in H as [Hu ->]. split; [|reflexivity].
    apply PyFacts.app_inv_head, (PyFacts.app_inv_head "/id/stations/") in Hu.
    apply string_app_inv_tail in Hu. exact Hu.
  - intros H. apply KeyFacts.cache_key_pair_inj in H as [Hu _].
    apply PyFacts.app_inv_head in Hu. discriminate Hu.
Qed.

(** X3. What the cache serves was sent by the upstream for that very
    request: in a world whose cache is sound a call that returns [v] returns
    an answer to a GET of the log for its own url and parameters, and it
    leaves the cache sound. *)
Theorem served_data_answered {unicode : Unicode} (config : Config) (upstream : Upstream)
    (url : string)
    (params : option (dict string)) (timeout : option Z) (w w' : World) (v : json) :
  cache_sound upstream w ->
  get_with_cache config upstream url params timeout w = (Ok v, w') ->
  answered upstream (sent w') (url, params) v /\ cache_sound upstream w'.
Proof.
  intros Hs H. destruct (call_sound _ _ _ _ _ _ _ _ Hs H) as [Hs' Hv].
  split; [apply Hv; reflexivity | exact Hs'].
Qed.

Lemma tick_cache_wf (d : Z) (w : World) : 0 <= d -> cache_wf w -> cache_wf (tick d w).
Proof. intros Hd Hwf k t x Hx. specialize (Hwf k t x Hx). cbn. lia. Qed.

Lemma result_answered_more (upstream : Upstream) (log more : list Request) (c : Call)
    (r : result json) :
  result_answered upstream log c r -> result_answered upstream (log ++ more) c r.
Proof. intros H v Hv. apply answered_more, H, Hv. Qed.

(** X4. Any session of calls, for any requests and timeouts, keeps what the
    cache needs: no entry is stamped later than the clock, every entry is an
    answer to a GET of the log for its own request, the log is only
    extended, by at most one GET a call, and every result that is data is
    such an answer for the request of its call. *)
Theorem session_invariants {unicode : Unicode} (config : Config) (upstream : Upstream)
    (cs : list Call) (w : World) :
  (forall h q, 0 <= took (upstream h q)) ->
  Forall (fun c => 0 <= call_pause c) cs ->
  cache_wf w -> cache_sound upstream w ->
  cache_wf (snd (session config upstream cs w)) /\
  cache_sound upstream (snd (session config upstream cs w)) /\
  (exists more, sent (snd (session config upstream cs w)) = sent w ++ more /\
     (length more <= length cs)%nat) /\
  Forall2 (result_answered upstream (sent (snd (session config upstream cs w))))
    cs (fst (session config upstream cs w)).
Proof.
  intros Htook Hp. revert w. induction Hp as [|c cs Hc Hp IH]; intros w Hwf Hs.
  - cbn. split; [assumption|]. split; [assumption|]. split; [|constructor].
    exists []. rewrite app_nil_r. auto.
  - cbn [session].
    destruct (get_with_cache config upstream (call_url c) (call_params c)
                (call_timeout c) w) as [r w1] eqn:H.
    pose proof (CacheFacts.call_cache_wf _ _ _ _ _ _ _ _ Htook Hwf H) as Hwf1.
    destruct (call_sound _ _ _ _ _ _ _ _ Hs H) as [Hs1 Hr].
    pose proof (CacheFacts.call_sent _ _ _ _ _ _ _ _ H) as Hsent.
    destruct (IH (tick (call_pause c) w1) (tick_cache_wf _ _ Hc Hwf1) Hs1)
      as (IHwf & IHs & (more & Hmore & Hlen) & IHr).
    destruct (session config upstream cs (tick (call_pause c) w1)) as [rs w2] eqn:Hrun.
    cbn [fst snd] in *. rewrite CacheFacts.tick_sent in Hmore.
    split; [assumption|]. split; [assumption|]. split.
    + destruct Hsent as [Hsent | Hsent]; rewrite Hmore, Hsent.
      * exists more. split; [reflexivity | cbn [length]; lia].
      * exists ([(call_url c, call_params c)] ++ more).
        rewrite <- (assoc_L (++)). split; [reflexivity | cbn [length app]; lia].
    + constructor; [|exact IHr].
      rewrite Hmore. apply result_answered_more. exact Hr.
Qed.

Lemma cache_sound_noon {unicode : Unicode} (upstream : Upstream) :
  cache_sound upstream Sample.noon.
Proof. intros url params t data H. cbn in H. rewrite lookup_empty in H. discriminate. Qed.

(** *** The properties on the sample worlds *)

Import Sample Trial.

#[local] Existing Instance latin1.

Lemma cache_key_injective_witness :
  cache_key "u" (Some ab) = cache_key "u" (Some ab) /\
  (cache_key "u" (Some ab) = cache_key "u" (Some ba) -> ab = ba).
Proof.
  split.
  - exact (proj2 (cache_key_injective "u" "u" (Some ab) (Some ab)) (conj eq_refl eq_refl)).
  - intros H. apply (cache_key_injective "u" "u" (Some ab) (Some ba)) in H as [_ H].
    congruence.
Defined.

Lemma resources_do_not_share_witness :
  ("1029TH" = "1029TH" /\ Some ab = Some ab) /\
  cache_key (stations_url Config_default) None <>
    cache_key (readings_url Config_default "1029TH") None.
Proof.
  destruct (resources_do_not_share Config_default "1029TH" "1029TH" (Some ab) (Some ab))
    as [Hsame _].
  destruct (resources_do_not_share Config_default "1029TH" "1029TH" None None)
    as [_ Hapart].
  split; [exact (Hsame eq_refl) | exact Hapart].
Defined.

Lemma served_data_answered_witness :
  cache_sound upstream_counting noon /\
  first_call (Some ab) = (Ok (JInt 0), snd (first_call (Some ab))) /\
  answered upstream_counting (sent (snd (first_call (Some ab)))) ("u", Some ab) (JInt 0) /\
  cache_sound upstream_counting (snd (first_call (Some ab))).
Proof.
  assert (H : first_call (Some ab) = (Ok (JInt 0), snd (first_call (Some ab))))
    by reflexivity.
  split; [apply cache_sound_noon|]. split; [exact H|].
  exact (served_data_answered Config_default upstream_counting "u" (Some ab) None
           noon _ (JInt 0) (cache_sound_noon _) H).
Defined.

Lemma session_invariants_witness :
  cache_wf (snd (session Config_default upstream_counting three_calls noon)) /\
  cache_sound upstream_counting
    (snd (session Config_default upstream_counting three_calls noon)) /\
  (exists more,
     sent (snd (session Config_default upstream_counting three_calls noon)) =
       sent noon ++ more /\ (length more <= length three_calls)%nat) /\
  Forall2
    (result_answered upstream_counting
       (sent (snd (session Config_default upstream_counting three_calls noon))))
    three_calls (fst (session Config_default upstream_counting three_calls noon)).
Proof.
  refine (session_invariants Config_default upstream_counting three_calls noon
            CacheFacts.took_counting _ CacheFacts.cache_wf_noon (cache_sound_noon _)).
  repeat constructor; cbn; lia.
Defined.

Lemma call_failure_witness :
  failed_call = (Raise (HTTPError 500), snd failed_call) /\
  cache (snd failed_call) = ∅ /\
  sent (snd failed_call) = [("u", None)].
Proof.
  assert (H : failed_call = (Raise (HTTPError 500), snd failed_call)) by reflexivity.
  destruct (call_failure Config_default upstream_flaky "u" None None noon _ _ H)
    as (Hcache & _ & Hsent & _).
  split; [exact H|]. split; [exact Hcache | exact Hsent].
Defined.

Lemma call_success_iff_witness :
  exists w', first_call (Some ab) = (Ok (JInt 0), w').
Proof.
  apply (call_success_iff Config_default upstream_counting "u" (Some ab) None noon (JInt 0)).
  right. split; [reflexivity|].
  eexists. split; [reflexivity|]. split; [cbn; lia | reflexivity].
Defined.

Lemma returned_is_cached_witness :
  first_call (Some ab) = (Ok (JInt 0), snd (first_call (Some ab))) /\
  exists t,
    cache (snd (first_call (Some ab))) !! cache_key "u" (Some ab) = Some (t, JInt 0) /\
    (t = clock (snd (first_call (Some ab))) \/
     clock (snd (first_call (Some ab))) - t < 300 * 1000000).
Proof.
  assert (H : first_call (Some ab) = (Ok (JInt 0), snd (first_call (Some ab))))
    by reflexivity.
  split; [exact H|].
  exact (returned_is_cached Config_default upstream_counting "u" (Some ab) None
           noon _ (JInt 0) H).
Defined.

Lemma cache_only_grows_witness :
  first_call (Some ab) = (Ok (JInt 0), snd (first_call (Some ab))) /\
  (size (cache noon) <= size (cache (snd (first_call (Some ab))))
     <= size (cache noon) + 1)%nat.
Proof.
  assert (H : first_call (Some ab) = (Ok (JInt 0), snd (first_call (Some ab))))
    by reflexivity.
  split; [exact H|].
  exact (proj2 (proj2 (cache_only_grows Config_default upstream_counting "u" (Some ab)
                         None noon _ _ H))).
Defined.

Lemma no_timeout_no_hit_witness :
  cache_wf (snd (first_call None)) /\
  timeout_of Config_default (Some 0) <= 0 /\
  sent (snd (get_with_cache Config_default upstream_counting "u" None (Some 0)
               (snd (first_call None)))) = [("u", None); ("u", None)].
Proof.
  assert (Hwf : cache_wf (snd (first_call None))).
  { apply (CacheFacts.call_cache_wf Config_default upstream_counting "u" None None
             noon _ (fst (first_call None)) CacheFacts.took_counting
             CacheFacts.cache_wf_noon).
    reflexivity. }
  assert (Httl : timeout_of Config_default (Some 0) <= 0) by (cbn; lia).
  split; [exact Hwf|]. split; [exact Httl|].
  exact (proj2 (no_timeout_no_hit Config_default upstream_counting "u" None (Some 0)
                  (snd (first_call None)) Hwf Httl)).
Defined.

End ServiceFacts.

(** ** [isoformat] tells two instants apart *)

Module CalendarFacts.
Import Datetime Calendar Text.

Lemma month_day_spec (leap : bool) (r : Z) :
  0 <= r < 365 ->
  1 <= fst (month_day leap r) <= 12 /\ 1 <= snd (month_day leap r) <= 31 /\
  days_before_month leap (fst (month_day leap r)) + snd (month_day leap r) = r + 1.
Proof.
  intros Hr.
  assert (H : forallb (month_day_ok leap) (seq 0 365) = true)
    by (destruct leap; vm_compute; reflexivity).
  rewrite forallb_forall in H. specialize (H (Z.to_nat r)).
  unfold month_day_ok in H. rewrite Z2Nat.id in H by lia.
  destruct (month_day leap r) as [m d]. cbn [fst snd].
  assert (Hin : In (Z.to_nat r) (seq 0 365)) by (apply in_seq; lia).
  specialize (H Hin). rewrite !andb_true_iff in H.
  destruct H as ((((H1 & H2) & H3) & H4) & H5). lia.
Qed.

Lemma ord2ymd_eq (n : Z) :
  ord2ymd n =
  let n0 := n - 1 in
  let n400 := n0 / 146097 in
  let r400 := n0 mod 146097 in
  let n100 := r400 / 36524 in
  let r100 := r400 mod 36524 in
  let n4 := r100 / 1461 in
  let r4 := r100 mod 1461 in
  let n1 := r4 / 365 in
  let r := r4 mod 365 in
  let year := n400 * 400 + 1 + n100 * 100 + n4 * 4 + n1 in
  if (n1 =? 4) || (n100 =? 4) then (year - 1, 12, 31)
  else
    let leapyear := (n1 =? 3) && (negb (n4 =? 24) || (n100 =? 3)) in
    (year, fst (month_day leapyear r), snd (month_day leapyear r)).
Proof.
  unfold ord2ymd, month_day. cbv zeta.
  destruct (_ || _); [reflexivity|].
  destruct (_ <? _); reflexivity.
Qed.

Lemma ord2ymd_spec (n : Z) :
  1 <= n ->
  exists y m d,
    ord2ymd n = (y, m, d) /\ ymd2ord y m d = n /\
    1 <= m <= 12 /\ 1 <= d <= 31 /\ 1 <= y /\ (n <= 3652059 -> y <= 9999).
Proof.
  intros Hn. rewrite ord2ymd_eq. cbv zeta.
  remember ((n - 1) / 146097) as a eqn:Ha.
  remember ((n - 1) mod 146097) as ra eqn:Hra.
  remember (ra / 36524) as b eqn:Hb.
  remember (ra mod 36524) as rb eqn:Hrb.
  remember (rb / 1461) as c eqn:Hc.
  remember (rb mod 1461) as rc eqn:Hrc.
  remember (rc / 365) as e eqn:He.
  remember (rc mod 365) as r eqn:Hr.
  assert (Hdec : n - 1 = 146097 * a + 36524 * b + 1461 * c + 365 * e + r /\
                 0 <= a /\ 0 <= b <= 4 /\ 0 <= c <= 24 /\ 0 <= e <= 4 /\ 0 <= r < 365 /\
                 0 <= ra < 146097 /\ 0 <= rb < 36524 /\ 0 <= rc < 1461 /\
                 ra = 36524 * b + rb /\ rb = 1461 * c + rc /\ rc = 365 * e + r).
  { subst. repeat split; try (apply Z.div_pos; lia);
      Z.div_mod_to_equations; lia. }
  clear Ha Hra Hb Hrb Hc Hrc He Hr.
  destruct Hdec as (Hn0 & Ha & Hb & Hc & He & Hr & Hra & Hrb & Hrc & Era & Erb & Erc).
  destruct ((e =? 4) || (b =? 4)) eqn:Hsp.
  - (* the last day of a leap year *)
    eexists _, _, _. split; [reflexivity|].
    assert (Hy : exists Y, a * 400 + 1 + b * 100 + c * 4 + e - 1 = Y /\
                   Y mod 4 = 0 /\ (Y mod 100 <> 0 \/ Y mod 400 = 0) /\
                   days_before_year Y + 366 = n /\ 1 <= Y /\ (n <= 3652059 -> Y <= 9999)).
    { eexists. split; [reflexivity|]. unfold days_before_year.
      apply orb_true_iff in Hsp as [Hsp | Hsp]; apply Z.eqb_eq in Hsp; subst.
      - split. { Z.div_mod_to_equations; lia. }
        split. { Z.div_mod_to_equations; lia. }
        split. { Z.div_mod_to_equations; lia. }
        split. { lia. } lia.
      - split. { Z.div_mod_to_equations; lia. }
        split. { Z.div_mod_to_equations; lia. }
        split. { Z.div_mod_to_equations; lia. }
        split. { lia. } lia. }
    destruct Hy as (Y & -> & H4 & H100 & Hd & HY1 & HY2).
    split.
    + assert (Hleap : is_leap Y = true).
      { unfold is_leap. rewrite H4. destruct H100 as [H100 | H400].
        - apply Z.eqb_neq in H100. rewrite H100. reflexivity.
        - rewrite H400. apply orb_true_r. }
      unfold ymd2ord. rewrite Hleap.
      change (days_before_month true 12) with 335. lia.
    + lia.
  - apply orb_false_iff in Hsp as [He4 Hb4].
    apply Z.eqb_neq in He4, Hb4.
    set (leap := (e =? 3) && (negb (c =? 24) || (b =? 3))).
    destruct (month_day_spec leap r Hr) as (Hm & Hd & Hmd).
    eexists _, _, _. split; [reflexivity|].
    set (Y := a * 400 + 1 + b * 100 + c * 4 + e).
    assert (HY : is_leap Y = leap /\ days_before_year Y = n - 1 - r /\ 1 <= Y /\
                 (n <= 3652059 -> Y <= 9999)).
    { unfold is_leap, days_before_year, leap, Y. split; [|split; [|split]].
      - destruct (Z.eqb_spec e 3) as [E3|E3]; cbn [andb].
        + destruct (Z.eqb_spec c 24) as [C|C]; cbn [negb orb].
          * destruct (Z.eqb_spec b 3) as [B|B].
            -- subst. replace ((a * 400 + 1 + 3 * 100 + 24 * 4 + 3) mod 4) with 0
                 by (Z.div_mod_to_equations; lia).
               replace ((a * 400 + 1 + 3 * 100 + 24 * 4 + 3) mod 400) with 0
                 by (Z.div_mod_to_equations; lia).
               cbn. rewrite orb_true_r. reflexivity.
            -- subst. replace ((a * 400 + 1 + b * 100 + 24 * 4 + 3) mod 4) with 0
                 by (Z.div_mod_to_equations; lia).
               replace ((a * 400 + 1 + b * 100 + 24 * 4 + 3) mod 100) with 0
                 by (Z.div_mod_to_equations; lia).
               cbn. apply Z.eqb_neq. Z.div_mod_to_equations. lia.
          * subst. replace ((a * 400 + 1 + b * 100 + c * 4 + 3) mod 4) with 0
              by (Z.div_mod_to_equations; lia).
            cbn. assert ((a * 400 + 1 + b * 100 + c * 4 + 3) mod 100 <> 0)
              by (Z.div_mod_to_equations; lia).
            apply Z.eqb_neq in H. rewrite H. reflexivity.
        + assert ((a * 400 + 1 + b * 100 + c * 4 + e) mod 4 <> 0)
            by (Z.div_mod_to_equations; lia).
          apply Z.eqb_neq in H. rewrite H. reflexivity.
      - Z.div_mod_to_equations. lia.
      - lia.
      - lia. }
    destruct HY as (Hleap & Hdby & HY1 & HY2).
    split; [|lia].
    unfold ymd2ord. rewrite Hleap, Hdby. lia.
Qed.

Lemma chars_pad_succ (w : nat) (n : Z) :
  chars (pad (S w) n) = chars (pad w (n / 10)) ++ [ascii_of_N (48 + Z.to_N (n mod 10))].
Proof. cbn [pad]. rewrite KeyFacts.chars_app. reflexivity. Qed.

Lemma pad_length (w : nat) (n : Z) : length (chars (pad w n)) = w.
Proof.
  revert n. induction w as [|w IH]; intros n; [reflexivity|].
  rewrite chars_pad_succ, length_app, IH. cbn. lia.
Qed.

Lemma pad_inj (w : nat) (n m : Z) :
  0 <= n < 10 ^ Z.of_nat w -> 0 <= m < 10 ^ Z.of_nat w ->
  chars (pad w n) = chars (pad w m) -> n = m.
Proof.
  revert n m. induction w as [|w IH]; intros n m Hn Hm H.
  - cbn in Hn, Hm. lia.
  - rewrite Nat2Z.inj_succ, Z.pow_succ_r in Hn, Hm by lia.
    rewrite !chars_pad_succ in H.
    apply app_inj_1 in H as [Hhi Hlo]; [|rewrite !pad_length; reflexivity].
    apply IH in Hhi; [|Z.div_mod_to_equations; lia ..].
    injection Hlo as Hlo. apply (f_equal N_of_ascii) in Hlo.
    rewrite !N_ascii_embedding in Hlo by (Z.div_mod_to_equations; lia).
    Z.div_mod_to_equations. lia.
Qed.

Lemma cons_eq_tail {A} (x : A) (l k : list A) : x :: l = x :: k -> l = k.
Proof. intros H. injection H as H. exact H. Qed.

Ltac field H Hf :=
  apply app_inj_1 in H as [Hf H]; [|rewrite !pad_length; reflexivity].

Lemma isoformat_inj (a b : Z) :
  iso_range a -> iso_range b -> isoformat a = isoformat b -> a = b.
Proof.
  unfold iso_range, isoformat. intros Ha Hb H.
  destruct (ord2ymd_spec (a / 1000000 / 86400 + epoch_ordinal))
    as (y1 & m1 & d1 & E1 & O1 & Hm1 & Hd1 & Hy1 & Hy1').
  { unfold epoch_ordinal. Z.div_mod_to_equations. lia. }
  destruct (ord2ymd_spec (b / 1000000 / 86400 + epoch_ordinal))
    as (y2 & m2 & d2 & E2 & O2 & Hm2 & Hd2 & Hy2 & Hy2').
  { unfold epoch_ordinal. Z.div_mod_to_equations. lia. }
  rewrite E1, E2 in H.
  assert (Hy1'' : y1 <= 9999)
    by (apply Hy1'; unfold epoch_ordinal; Z.div_mod_to_equations; lia).
  assert (Hy2'' : y2 <= 9999)
    by (apply Hy2'; unfold epoch_ordinal; Z.div_mod_to_equations; lia).
  clear Hy1' Hy2'.
  apply (f_equal chars) in H. rewrite !KeyFacts.chars_app in H.
  field H Fy. cbn [list_ascii_of_string app] in H. apply cons_eq_tail in H.
  field H Fm. cbn [list_ascii_of_string app] in H. apply cons_eq_tail in H.
  field H Fd. cbn [list_ascii_of_string app] in H. apply cons_eq_tail in H.
  field H FH. cbn [list_ascii_of_string app] in H. apply cons_eq_tail in H.
  field H FM. cbn [list_ascii_of_string app] in H. apply cons_eq_tail in H.
  field H Fs.
  apply pad_inj in Fy; [|change (10 ^ Z.of_nat 4) with 10000; lia ..].
  apply pad_inj in Fm; [|change (10 ^ Z.of_nat 2) with 100; lia ..].
  apply pad_inj in Fd; [|change (10 ^ Z.of_nat 2) with 100; lia ..].
  apply pad_inj in FH;
    [|change (10 ^ Z.of_nat 2) with 100; Z.div_mod_to_equations; lia ..].
  apply pad_inj in FM;
    [|change (10 ^ Z.of_nat 2) with 100; Z.div_mod_to_equations; lia ..].
  apply pad_inj in Fs;
    [|change (10 ^ Z.of_nat 2) with 100; Z.div_mod_to_equations; lia ..].
  assert (Fus : a mod 1000000 = b mod 1000000).
  { destruct (Z.eqb_spec (a mod 1000000) 0) as [Za|Za],
             (Z.eqb_spec (b mod 1000000) 0) as [Zb|Zb].
    - congruence.
    - rewrite KeyFacts.chars_app in H. discriminate H.
    - rewrite KeyFacts.chars_app in H. discriminate H.
    - rewrite !KeyFacts.chars_app in H. cbn [list_ascii_of_string app] in H. apply cons_eq_tail in H.
      apply pad_inj in H;
        [exact H | change (10 ^ Z.of_nat 6) with 1000000; Z.div_mod_to_equations; lia ..]. }
  assert (Fn : a / 1000000 / 86400 = b / 1000000 / 86400).
  { subst y2 m2 d2. rewrite O1 in O2. lia. }
  clear E1 E2 O1 O2 H.
  Z.div_mod_to_equations. lia.
Qed.

End CalendarFacts.

(** ** The shaping of the parameters, once more, and the views *)

Module ViewFacts.
Import Py Runtime ea_service routes Spec Session.

Lemma string_app_not_empty (s t : string) : s <> EmptyString -> s +:+ t <> EmptyString.
Proof. destruct s; [congruence | discriminate]. Qed.

Lemma pad_not_empty (w : nat) (n : Z) : Datetime.pad (S w) n <> EmptyString.
Proof. cbn [Datetime.pad]. destruct (Datetime.pad w (n / 10)); discriminate. Qed.

(** An ISO timestamp is never the empty string, so it counts as given. *)
Lemma isoformat_not_empty (dt : Datetime.datetime) : Datetime.isoformat dt <> EmptyString.
Proof.
  unfold Datetime.isoformat. destruct (Datetime.ord2ymd _) as [[y m] d].
  apply string_app_not_empty, pad_not_empty.
Qed.

Lemma dict_set_twice {V} (k : string) (v : V) (d : dict V) :
  dict_set k v (dict_set k v d) = dict_set k v d.
Proof.
  induction d as [|[k' v'] d IH]; cbn.
  - rewrite String.eqb_refl. reflexivity.
  - destruct (String.eqb k k') eqn:E; cbn; rewrite E; [reflexivity | f_equal; exact IH].
Qed.

Lemma keys_dict_set {V} (k : string) (v : V) (d : dict V) :
  exists added, keys (dict_set k v d) = keys d ++ added /\ (added = [] \/ added = [k]).
Proof.
  induction d as [|[k' v'] d (added & IH & Hadded)]; cbn.
  - exists [k]. auto.
  - destruct (String.eqb k k'); cbn.
    + exists []. rewrite app_nil_r. auto.
    + exists added. unfold keys in IH. rewrite IH. auto.
Qed.

Lemma needs_since_sorted (d : dict string) :
  needs_since (dict_set "_sorted" EmptyString d) = needs_since d.
Proof.
  unfold needs_since. rewrite !ReadingsFacts.dict_get_set_ne by discriminate. reflexivity.
Qed.

(** Shaped parameters need no more shaping, at whatever time. *)
Lemma shaped_twice (now now' : Datetime.datetime) (d : dict string) :
  shaped now' (shaped now d) = shaped now d.
Proof.
  assert (H : needs_since (shaped now d) = false).
  { unfold shaped. rewrite needs_since_sorted.
    destruct (needs_since d) eqn:E; [|exact E].
    unfold needs_since. rewrite (ReadingsFacts.dict_get_set_ne "since" "today") by discriminate.
    rewrite ReadingsFacts.dict_get_set_eq.
    rewrite (ReadingsFacts.truthy_get_Some _ (isoformat_not_empty _)).
    rewrite andb_false_r. reflexivity. }
  rewrite (ReadingsFacts.shaped_no_since _ _ H). unfold shaped at 2.
  apply dict_set_twice.
Qed.

(** The heap plays no part in a call of [get_with_cache]. *)
Lemma call_set_heap {unicode : Unicode} (config : Config) (upstream : Upstream) (url : string)
    (params : option (dict string)) (timeout : option Z)
    (h : gmap loc (dict string)) (w : World) :
  get_with_cache config upstream url params timeout (set_heap h w) =
  (fst (get_with_cache config upstream url params timeout w),
   set_heap h (snd (get_with_cache config upstream url params timeout w))).
Proof.
  destruct (lookup_fresh (cache_key url params) (timeout_of config timeout) w)
    as [data|] eqn:E.
  - rewrite (CacheFacts.call_fresh _ _ _ _ _ w _ E).
    apply CacheFacts.call_fresh. exact E.
  - rewrite (CacheFacts.call_stale _ _ _ _ _ w E).
    rewrite (CacheFacts.call_stale _ _ _ _ _ (set_heap h w) E).
    cbn [sent set_heap].
    destruct (outcome _) as [response|]; [|reflexivity].
    destruct (_ && _); [reflexivity|].
    destruct (body response); reflexivity.
Qed.

(** The clock does not go back during a call, as long as no exchange takes
    negative time. *)
Lemma call_clock {unicode : Unicode} (config : Config) (upstream : Upstream) (url : string)
    (params : option (dict string)) (timeout : option Z) (w w' : World)
    (r : result json) :
  (forall h q, 0 <= took (upstream h q)) ->
  get_with_cache config upstream url params timeout w = (r, w') ->
  clock w <= clock w'.
Proof.
  intros Htook H. specialize (Htook (sent w) (url, params)).
  destruct (lookup_fresh (cache_key url params) (timeout_of config timeout) w)
    as [data|] eqn:E.
  - rewrite (CacheFacts.call_fresh _ _ _ _ _ w _ E) in H. injection H as _ <-. lia.
  - rewrite (CacheFacts.call_stale _ _ _ _ _ w E) in H.
    destruct (outcome _) as [response|];
      [destruct (_ && _); [|destruct (body response)]|];
      injection H as _ <-; cbn; lia.
Qed.

Section Readings.

Context {unicode : Unicode}.
Variable config : Config.
Variable utcoffset : Z -> Z.
Variable upstream : Upstream.
Variable station_id : string.

Local Abbreviation run := (get_station_readings config utcoffset upstream station_id).
Local Abbreviation url := (readings_url config station_id).

(** X10. Shaping passes the caller's parameters on: what the function hands
    to [get_with_cache] has every key the caller gave, in the caller's
    order, followed by at most [since] and [_sorted]; every value but those
    of [since] and [_sorted] is the caller's, and so is a [since] that is
    not empty. *)
Theorem shaping_keeps_parameters (params : option loc) (w : World) :
  exists d h,
    run params w = get_with_cache config upstream url (Some d) None (set_heap h w) /\
    (exists added, keys d = keys (supplied params w) ++ added /\
       incl added ["since"; "_sorted"]) /\
    (forall k, k <> "since" -> k <> "_sorted" ->
       dict_get k d = dict_get k (supplied params w)) /\
    (forall v, dict_get "since" (supplied params w) = Some v -> v <> EmptyString ->
       dict_get "since" d = Some v).
Proof.
  eexists _, _. split; [apply ReadingsFacts.get_station_readings_eq|].
  unfold shaped. split; [|split].
  - destruct (keys_dict_set "_sorted" EmptyString
                (if needs_since (supplied params w)
                 then dict_set "since"
                        (Datetime.isoformat
                           (local_now utcoffset w - Datetime.timedelta_hours 24))
                        (supplied params w)
                 else supplied params w)) as (a2 & -> & Ha2).
    destruct (needs_since (supplied params w)).
    + destruct (keys_dict_set "since"
                  (Datetime.isoformat (local_now utcoffset w - Datetime.timedelta_hours 24))
                  (supplied params w)) as (a1 & -> & Ha1).
      exists (a1 ++ a2). rewrite <- (assoc_L (++)). split; [reflexivity|].
      intros x Hx. apply in_app_or in Hx as [Hx | Hx].
      * destruct Ha1 as [-> | ->]; [contradiction|].
        destruct Hx as [<- | []]. cbn. auto.
      * destruct Ha2 as [-> | ->]; [contradiction|].
        destruct Hx as [<- | []]. cbn. auto.
    + exists a2. split; [reflexivity|].
      intros x Hx. destruct Ha2 as [-> | ->]; [contradiction|].
      destruct Hx as [<- | []]. cbn. auto.
  - intros k Hs Ho. rewrite ReadingsFacts.dict_get_set_ne by congruence.
    destruct (needs_since _); [|reflexivity].
    apply ReadingsFacts.dict_get_set_ne. congruence.
  - intros v Hv Hne. rewrite ReadingsFacts.dict_get_set_ne by discriminate.
    unfold needs_since. rewrite Hv, (ReadingsFacts.truthy_get_Some v Hne).
    rewrite andb_false_r. cbn. exact Hv.
Qed.

(** X11. A dict that went through the function once is not shaped again:
    called a second time with the same dict object, at whatever time, the
    function hands on the parameters of the first call, with the [since] of
    the first call, and leaves the world to [get_with_cache] as it is. *)
Theorem second_call_same_dict (p : loc) (d0 : dict string) (w w1 : World)
    (r : result json) (pause : Z) :
  heap w !! p = Some d0 ->
  run (Some p) w = (r, w1) ->
  heap w1 !! p = Some (shaped (local_now utcoffset w) d0) /\
  run (Some p) (tick pause w1) =
    get_with_cache config upstream url (Some (shaped (local_now utcoffset w) d0)) None
      (tick pause w1).
Proof.
  intros Hp H.
  assert (Hp1 : heap w1 !! p = Some (shaped (local_now utcoffset w) d0)).
  { rewrite ReadingsFacts.get_station_readings_eq in H.
    apply CacheFacts.call_heap in H. rewrite H. cbn [set_heap heap target supplied].
    rewrite Hp. cbn [default]. apply lookup_insert_eq. }
  split; [exact Hp1|].
  assert (Hsup : supplied (Some p) (tick pause w1) = shaped (local_now utcoffset w) d0).
  { unfold supplied. rewrite (eq_refl : heap (tick pause w1) = heap w1), Hp1. reflexivity. }
  rewrite ReadingsFacts.get_station_readings_eq, Hsup, shaped_twice.
  cbn [target]. rewrite (eq_refl : heap (tick pause w1) = heap w1).
  rewrite insert_id by exact Hp1.
  destruct w1; reflexivity.
Qed.

(** The readings view: a new dict with the query, shaped, and the call. *)
Lemma readings_eq (args : list (string * string)) (w : World) :
  readings config utcoffset upstream station_id args w =
  (match fst (get_with_cache config upstream url
                (Some (shaped (local_now utcoffset w) (to_dict args))) None w) with
   | Ok data => Ok (jsonify data)
   | Raise e => Raise e
   end,
   set_heap (<[fresh (dom (heap w)) := shaped (local_now utcoffset w) (to_dict args)]>
               (heap w))
     (snd (get_with_cache config upstream url
             (Some (shaped (local_now utcoffset w) (to_dict args))) None w))).
Proof.
  unfold readings. unfold bind at 1. cbn [new_dict]. unfold bind at 1.
  rewrite ReadingsFacts.get_station_readings_eq.
  cbn [supplied target set_heap heap]. rewrite lookup_insert_eq, insert_insert_eq.
  cbn [default]. change (local_now utcoffset (set_heap _ w)) with (local_now utcoffset w).
  change (set_heap ?h (set_heap _ w)) with (set_heap h w).
  rewrite call_set_heap.
  destruct (get_with_cache _ _ _ _ _ w) as [[data|e] w1]; reflexivity.
Qed.

(** X12. Readings asked with a [today], [since] or [date] that is not empty
    are served from the cache: when the view went upstream and answered, the
    same query asked again before the default timeout has elapsed gets the
    same answer without a GET and without a change to the cache. *)
Theorem dated_readings_are_cached (args : list (string * string)) (w w1 : World)
    (view : View) (pause : Z) :
  needs_since (to_dict args) = false ->
  lookup_fresh (cache_key url (Some (dict_set "_sorted" EmptyString (to_dict args))))
    (CACHE_TIMEOUT config) w = None ->
  readings config utcoffset upstream station_id args w = (Ok view, w1) ->
  pause < CACHE_TIMEOUT config * 1000000 ->
  sent w1 = sent w ++ [(url, Some (dict_set "_sorted" EmptyString (to_dict args)))] /\
  exists w2,
    readings config utcoffset upstream station_id args (tick pause w1) = (Ok view, w2) /\
    sent w2 = sent w1 /\ cache w2 = cache w1.
Proof.
  intros Hdate E H Hpause. rewrite readings_eq in H.
  rewrite (ReadingsFacts.shaped_no_since _ _ Hdate) in H.
  destruct (get_with_cache config upstream url
              (Some (dict_set "_sorted" EmptyString (to_dict args))) None w)
    as [[data|e] wc] eqn:Hcall; [|discriminate H].
  cbn [fst snd] in H. injection H as <- <-.
  destruct (CacheFacts.call_again config upstream url _ None w wc data pause E Hcall Hpause)
    as [Hsent Hhit].
  split; [exact Hsent|].
  rewrite readings_eq, (ReadingsFacts.shaped_no_since _ _ Hdate).
  change (tick pause (set_heap ?h wc)) with (set_heap h (tick pause wc)).
  rewrite call_set_heap, Hhit. cbn [fst snd].
  eexists. split; [reflexivity|]. split; reflexivity.
Qed.

(** X16. Readings asked without a true [today], [since] or [date] are
    cached under their local time: the injected [since] carries the local
    wall-clock time of the request to the microsecond, so two such requests
    derive the same key exactly when they are made at the same local time. A
    request made at another local time, the cache having held nothing under
    its key, sends its own GET; and the local times do differ when the second
    request is made later and the offset from UTC is the same at both. When
    the offset has changed in between, as at the end of daylight saving
    time, a later request can have the local time of an earlier one. *)
Theorem default_readings_keyed_by_local_time (args : list (string * string))
    (w w1 : World) (r : result View) (pause : Z) :
  needs_since (to_dict args) = true ->
  readings config utcoffset upstream station_id args w = (r, w1) ->
  Calendar.iso_range (local_now utcoffset w - Datetime.timedelta_hours 24) ->
  Calendar.iso_range
    (local_now utcoffset (tick pause w1) - Datetime.timedelta_hours 24) ->
  (cache_key url (Some (shaped (local_now utcoffset w) (to_dict args))) =
     cache_key url (Some (shaped (local_now utcoffset (tick pause w1)) (to_dict args))) <->
   local_now utcoffset w = local_now utcoffset (tick pause w1)) /\
  (local_now utcoffset w <> local_now utcoffset (tick pause w1) ->
   cache w !! cache_key url
                (Some (shaped (local_now utcoffset (tick pause w1)) (to_dict args))) = None ->
   sent (snd (readings config utcoffset upstream station_id args (tick pause w1))) =
     sent w1 ++ [(url, Some (shaped (local_now utcoffset (tick pause w1)) (to_dict args)))]) /\
  ((forall h q, 0 <= took (upstream h q)) ->
   0 < pause ->
   utcoffset (clock w) = utcoffset (clock (tick pause w1)) ->
   local_now utcoffset w <> local_now utcoffset (tick pause w1)).
Proof.
  intros Hneeds H Hr1 Hr2.
  rewrite readings_eq in H.
  destruct (get_with_cache config upstream url
              (Some (shaped (local_now utcoffset w) (to_dict args))) None w)
    as [r0 wc] eqn:Hcall.
  cbn [fst snd] in H. injection H as _ <-.
  change (local_now utcoffset (tick pause (set_heap ?h wc)))
    with (local_now utcoffset (tick pause wc)) in *.
  assert (Hkey : cache_key url (Some (shaped (local_now utcoffset w) (to_dict args))) =
                 cache_key url
                   (Some (shaped (local_now utcoffset (tick pause wc)) (to_dict args))) <->
                 local_now utcoffset w = local_now utcoffset (tick pause wc)).
  { split; [|intros ->; reflexivity].
    intros Hk. apply KeyFacts.cache_key_pair_inj in Hk as [_ Hk]. injection Hk as Hk.
    apply (f_equal (dict_get "since")) in Hk.
    rewrite !ReadingsFacts.shaped_since in Hk by exact Hneeds.
    injection Hk as Hk. apply CalendarFacts.isoformat_inj in Hk; [lia | assumption..]. }
  split; [exact Hkey|]. split.
  - intros Hne Hnone. rewrite readings_eq.
    change (tick pause (set_heap ?h wc)) with (set_heap h (tick pause wc)).
    cbn [snd set_heap sent]. rewrite call_set_heap. cbn [snd set_heap sent].
    change (local_now utcoffset (set_heap ?h (tick pause wc)))
      with (local_now utcoffset (tick pause wc)).
    rewrite CacheFacts.call_sent_stale; [reflexivity|].
    apply CacheFacts.lookup_fresh_None. intros t x. rewrite CacheFacts.tick_cache.
    rewrite (CacheFacts.call_frame _ _ _ _ _ _ _ _ _ Hcall), Hnone; [discriminate|].
    intros Hk. apply Hne. apply Hkey. symmetry. exact Hk.
  - intros Htook Hpause Hoff.
    pose proof (call_clock _ _ _ _ _ _ _ _ Htook Hcall) as Hclock.
    unfold local_now. cbn [tick set_clock set_heap clock] in Hoff |- *.
    rewrite <- Hoff. lia.
Qed.

(** X17. The readings view works on a dict of its own: whatever the query,
    every dict that was on the heap before the request is there unchanged
    after it, and the one dict the view made holds the shaped parameters. *)
Theorem readings_view_keeps_heap (args : list (string * string)) (w : World)
    (p : loc) (d : dict string) :
  heap w !! p = Some d ->
  heap (snd (readings config utcoffset upstream station_id args w)) !! p = Some d /\
  heap (snd (readings config utcoffset upstream station_id args w))
    !! fresh (dom (heap w)) = Some (shaped (local_now utcoffset w) (to_dict args)) /\
  fresh (dom (heap w)) <> p.
Proof.
  intros Hp.
  assert (Hfresh : fresh (dom (heap w)) <> p).
  { intros <-. apply (is_fresh (dom (heap w))). apply elem_of_dom. eauto. }
  rewrite readings_eq. cbn [snd set_heap heap].
  split; [|split; [apply lookup_insert_eq | exact Hfresh]].
  rewrite lookup_insert_ne by exact Hfresh. exact Hp.
Qed.

End Readings.

Section Stations.

Context {unicode : Unicode}.
Variable config : Config.
Variable upstream : Upstream.
Variable station_id : string.

Local Abbreviation filter := (Some [("stationReference", station_id)]).
Local Abbreviation lookup := (get_stations config upstream filter).
Local Abbreviation view := (station config upstream station_id).

Lemma station_of_lookup (w w1 : World) (obj : dict json) :
  lookup w = (Ok (JDict obj), w1) ->
  view w =
    if truthy (default JNull (dict_get "items" obj))
    then match getitem0 (default JNull (dict_get "items" obj)) w1 with
         | (Ok first, w2) => (Ok (jsonify first), w2)
         | (Raise e, w2) => (Raise e, w2)
         end
    else (Ok not_found, w1).
Proof.
  intros H. unfold station, bind. rewrite H. cbn [py_get ret].
  destruct (dict_get "items" obj) as [items|] eqn:Hi; [|reflexivity].
  change (default JNull (Some items)) with items.
  destruct (truthy items); [|reflexivity].
  unfold getitem. rewrite Hi. cbn [ret].
  destruct (getitem0 items w1) as [[first|e] w2]; reflexivity.
Qed.

Lemma station_other (w w1 : World) (data : json) :
  lookup w = (Ok data, w1) -> (forall obj, data <> JDict obj) ->
  view w = (Raise AttributeError, w1).
Proof.
  intros H Hd. unfold station, bind. rewrite H.
  destruct data; try reflexivity. exfalso. eapply Hd. reflexivity.
Qed.

Lemma station_404 (w w' : World) (body : json) :
     view w = (Ok (body, 404), w') <->
     body = JDict [("error", JStr "Station not found")] /\
     exists obj, lookup w = (Ok (JDict obj), w') /\
       truthy (default JNull (dict_get "items" obj)) = false.
Proof.
  split.
  - intros H. destruct (lookup w) as [[data|e] w1] eqn:Hl.
    + destruct data as [| b | n | n den | s | l | obj];
        try (rewrite (station_other _ _ _ Hl) in H; [discriminate H | discriminate]).
      rewrite (station_of_lookup _ _ _ Hl) in H.
      destruct (truthy _) eqn:Ht.
      * destruct (default JNull (dict_get "items" obj)) as [| b | n | n den | s | l | o];
          try destruct s; try destruct l; cbn in H; simplify_eq.
      * unfold not_found in H. simplify_eq. eauto.
    + unfold station, bind in H. rewrite Hl in H. discriminate H.
  - intros (-> & obj & Hl & Ht). rewrite (station_of_lookup _ _ _ Hl), Ht. reflexivity.
Qed.

Lemma station_200 (w w' : World) (body : json) :
     view w = (Ok (body, 200), w') <->
     exists obj, lookup w = (Ok (JDict obj), w') /\
       ((exists rest, dict_get "items" obj = Some (JList (body :: rest))) \/
        (exists c s, dict_get "items" obj = Some (JStr (String c s)) /\
           body = JStr (first_char (String c s)))).
Proof.
  split.
  - intros H. destruct (lookup w) as [[data|e] w1] eqn:Hl.
    + destruct data as [| b | n | n den | s | l | obj];
        try (rewrite (station_other _ _ _ Hl) in H; [discriminate H | discriminate]).
      rewrite (station_of_lookup _ _ _ Hl) in H.
      destruct (truthy _) eqn:Ht.
      * destruct (dict_get "items" obj) as [items|] eqn:Hi; [|discriminate Ht].
        cbn [default] in *.
        destruct items as [| b | n | n den | s | l | o];
          try destruct s; try destruct l; cbn in H; simplify_eq.
        -- exists obj. split; [reflexivity|]. right. eauto.
        -- exists obj. split; [reflexivity|]. left. eauto.
      * unfold not_found in H. simplify_eq.
    + unfold station, bind in H. rewrite Hl in H. discriminate H.
  - intros (obj & Hl & [[rest Hi] | (c & s & Hi & ->)]);
      rewrite (station_of_lookup _ _ _ Hl), Hi; reflexivity.
Qed.

Lemma station_status (w w' : World) (body : json) (status : Z) :
  view w = (Ok (body, status), w') -> status = 200 \/ status = 404.
Proof.
  intros H. destruct (lookup w) as [[data|e] w1] eqn:Hl.
  - destruct data as [| b | n | n den | s | l | obj];
      try (rewrite (station_other _ _ _ Hl) in H; [discriminate H | discriminate]).
    rewrite (station_of_lookup _ _ _ Hl) in H.
    destruct (truthy _).
    + destruct (getitem0 _ w1) as [[first|e] w2]; unfold jsonify in H; simplify_eq. auto.
    + unfold not_found in H. simplify_eq. auto.
  - unfold station, bind in H. rewrite Hl in H. discriminate H.
Qed.

(** X13. The answers of the station view. It answers 404, with the error
    body, exactly when the stations result is an object whose [items] is
    absent or false (null, an empty list); it answers 200 exactly when
    [items] is a list with a first element, which is the body, or a string
    that is not empty, whose first character is the body; it answers with
    no other status; and when the lookup raises, the view raises the same. *)
Theorem station_answers (w w' : World) :
  (forall body,
     view w = (Ok (body, 404), w') <->
     body = JDict [("error", JStr "Station not found")] /\
     exists obj, lookup w = (Ok (JDict obj), w') /\
       truthy (default JNull (dict_get "items" obj)) = false) /\
  (forall body,
     view w = (Ok (body, 200), w') <->
     exists obj, lookup w = (Ok (JDict obj), w') /\
       ((exists rest, dict_get "items" obj = Some (JList (body :: rest))) \/
        (exists c s, dict_get "items" obj = Some (JStr (String c s)) /\
           body = JStr (first_char (String c s))))) /\
  (forall body status, view w = (Ok (body, status), w') -> status = 200 \/ status = 404) /\
  (forall e, lookup w = (Raise e, w') -> view w = (Raise e, w')).
Proof.
  split; [intros body; apply station_404|].
  split; [intros body; apply station_200|].
  split; [intros body status; apply station_status|].
  intros e H. unfold station, bind. rewrite H. reflexivity.
Qed.

(** The view leaves the world as the lookup left it. *)
Lemma station_world (w : World) : snd (view w) = snd (lookup w).
Proof.
  destruct (lookup w) as [[data|e] w1] eqn:Hl.
  - destruct data as [| b | n | n den | s | l | obj];
      try (rewrite (station_other _ _ _ Hl); [reflexivity | discriminate]).
    rewrite (station_of_lookup _ _ _ Hl).
    destruct (truthy _); [|reflexivity].
    destruct (default JNull (dict_get "items" obj)) as [| b | n | n den | s | l | o];
      try destruct s; try destruct l; reflexivity.
  - unfold station, bind. rewrite Hl. reflexivity.
Qed.


(** X15. The stations view warms the cache for the station view: after the
    stations view went upstream for a query that is the filter on the id and
    answered, the station view asked before the default timeout has elapsed
    works on the same data and sends no GET. *)
Theorem stations_view_primes_station (args : list (string * string)) (w w1 : World)
    (v : View) (pause : Z) :
  to_dict args = [("stationReference", station_id)] ->
  lookup_fresh (cache_key (stations_url config) filter) (CACHE_TIMEOUT config) w = None ->
  stations config upstream args w = (Ok v, w1) ->
  pause < CACHE_TIMEOUT config * 1000000 ->
  snd v = 200 /\
  lookup (tick pause w1) = (Ok (fst v), tick pause w1) /\
  snd (view (tick pause w1)) = tick pause w1 /\
  sent (snd (view (tick pause w1))) = sent w ++ [(stations_url config, filter)].
Proof.
  intros Hargs E H Hpause. unfold stations, bind in H. rewrite Hargs in H.
  destruct (lookup w) as [[data|e] wc] eqn:Hl; [|discriminate H].
  cbn [ret] in H. injection H as <- <-.
  unfold get_stations in Hl. fold (stations_url config) in Hl.
  destruct (CacheFacts.call_again config upstream (stations_url config) filter None
              w wc data pause E Hl Hpause) as [Hsent Hhit].
  assert (Hlook : lookup (tick pause wc) = (Ok data, tick pause wc)).
  { unfold get_stations. fold (stations_url config). exact Hhit. }
  split; [reflexivity|]. split; [exact Hlook|].
  rewrite station_world, Hlook. cbn [snd]. split; [reflexivity|].
  rewrite CacheFacts.tick_sent. exact Hsent.
Qed.

End Stations.

(** *** The properties on the sample worlds *)

Import Sample Trial.

#[local] Existing Instance latin1.

Lemma shaping_keeps_parameters_witness :
  exists d added,
    keys d = ["parameter"] ++ added /\
    incl added ["since"; "_sorted"] /\
    dict_get "parameter" d = Some "level".
Proof.
  destruct (shaping_keeps_parameters Config_default utc upstream_counting "1029TH"
              (Some 1%positive) (noon_with level))
    as (d & h & _ & (added & Hkeys & Hadded) & Hsame & _).
  exists d, added. split; [exact Hkeys|]. split; [exact Hadded|].
  refine (Hsame "parameter" _ _); discriminate.
Defined.

Lemma second_call_same_dict_witness :
  heap (noon_with level) !! 1%positive = Some level /\
  sample_readings (Some 1%positive) (noon_with level) =
    (Ok (JInt 0), snd (sample_readings (Some 1%positive) (noon_with level))) /\
  heap (snd (sample_readings (Some 1%positive) (noon_with level))) !! 1%positive =
    Some [("parameter", "level"); ("since", "2023-12-31T12:00:00");
          ("_sorted", EmptyString)] /\
  sample_readings (Some 1%positive)
    (tick 3600000000 (snd (sample_readings (Some 1%positive) (noon_with level)))) =
  get_with_cache Config_default upstream_counting sample_url
    (Some [("parameter", "level"); ("since", "2023-12-31T12:00:00");
           ("_sorted", EmptyString)]) None
    (tick 3600000000 (snd (sample_readings (Some 1%positive) (noon_with level)))).
Proof.
  assert (Hp : heap (noon_with level) !! 1%positive = Some level) by reflexivity.
  assert (H : sample_readings (Some 1%positive) (noon_with level) =
              (Ok (JInt 0), snd (sample_readings (Some 1%positive) (noon_with level))))
    by reflexivity.
  split; [exact Hp|]. split; [exact H|].
  exact (second_call_same_dict Config_default utc upstream_counting "1029TH"
           1%positive level (noon_with level) _ (Ok (JInt 0)) 3600000000 Hp H).
Defined.

Lemma dated_readings_are_cached_witness :
  needs_since (to_dict dated) = false /\
  view_readings dated noon = (Ok (JInt 0, 200), snd (view_readings dated noon)) /\
  60000000 < CACHE_TIMEOUT Config_default * 1000000 /\
  exists w2,
    view_readings dated (tick 60000000 (snd (view_readings dated noon))) =
      (Ok (JInt 0, 200), w2) /\
    sent w2 = sent (snd (view_readings dated noon)) /\
    cache w2 = cache (snd (view_readings dated noon)).
Proof.
  assert (Hd : needs_since (to_dict dated) = false) by reflexivity.
  assert (H : view_readings dated noon = (Ok (JInt 0, 200), snd (view_readings dated noon)))
    by reflexivity.
  assert (Hp : 60000000 < CACHE_TIMEOUT Config_default * 1000000) by (cbn; lia).
  split; [exact Hd|]. split; [exact H|]. split; [exact Hp|].
  exact (proj2 (dated_readings_are_cached Config_default utc upstream_counting "1029TH"
                  dated noon _ (JInt 0, 200) 60000000 Hd eq_refl H Hp)).
Defined.

Lemma default_readings_keyed_by_local_time_witness :
  needs_since (to_dict []) = true /\
  view_readings [] noon = (Ok (JInt 0, 200), snd (view_readings [] noon)) /\
  local_now utc noon <> local_now utc (tick 1 (snd (view_readings [] noon))) /\
  sent (snd (view_readings [] (tick 1 (snd (view_readings [] noon))))) =
    [(sample_url, Some [("since", "2023-12-31T12:00:00"); ("_sorted", EmptyString)]);
     (sample_url, Some [("since", "2023-12-31T12:00:00.001001");
                        ("_sorted", EmptyString)])].
Proof.
  assert (Hn : needs_since (to_dict []) = true) by reflexivity.
  assert (H : view_readings [] noon = (Ok (JInt 0, 200), snd (view_readings [] noon)))
    by reflexivity.
  assert (Hr1 : Calendar.iso_range (local_now utc noon - Datetime.timedelta_hours 24)).
  { unfold Calendar.iso_range. vm_compute. split; congruence. }
  assert (Hr2 : Calendar.iso_range
                  (local_now utc (tick 1 (snd (view_readings [] noon))) -
                   Datetime.timedelta_hours 24)).
  { unfold Calendar.iso_range. vm_compute. split; congruence. }
  destruct (default_readings_keyed_by_local_time Config_default utc upstream_counting
              "1029TH" [] noon _ (Ok (JInt 0, 200)) 1 Hn H Hr1 Hr2)
    as (_ & Hmiss & Hlater).
  assert (Hne : local_now utc noon <> local_now utc (tick 1 (snd (view_readings [] noon)))).
  { apply (Hlater CacheFacts.took_counting); [lia | reflexivity]. }
  split; [exact Hn|]. split; [exact H|]. split; [exact Hne|].
  exact (Hmiss Hne eq_refl).
Defined.

(** At the end of summer time the local clock shows the hour from one to
    two twice. With a timeout of two hours, default readings asked at 01:30
    of the first and again an hour later, at 01:30 of the second, derive the
    same key, and the second request is answered from the cache. *)
Example default_readings_hit_when_clocks_go_back :
  local_now london half_past = local_now london (tick 3599999000 (snd hour_repeated)) /\
  hour_repeated = (Ok (JInt 0, 200), snd hour_repeated) /\
  fst (readings config_two_hours london upstream_counting "1029TH" []
         (tick 3599999000 (snd hour_repeated))) = Ok (JInt 0, 200) /\
  sent (snd (readings config_two_hours london upstream_counting "1029TH" []
               (tick 3599999000 (snd hour_repeated)))) =
    [(sample_url, Some [("since", "2024-10-26T01:30:00"); ("_sorted", EmptyString)])].
Proof. repeat split; reflexivity. Qed.

Lemma readings_view_keeps_heap_witness :
  heap (noon_with level) !! 1%positive = Some level /\
  heap (snd (view_readings [] (noon_with level))) !! 1%positive = Some level /\
  heap (snd (view_readings [] (noon_with level))) !! 2%positive =
    Some [("since", "2023-12-31T12:00:00"); ("_sorted", EmptyString)].
Proof.
  assert (Hp : heap (noon_with level) !! 1%positive = Some level) by reflexivity.
  destruct (readings_view_keeps_heap Config_default utc upstream_counting "1029TH"
              [] (noon_with level) 1%positive level Hp) as (Hold & Hnew & _).
  split; [exact Hp|]. split; [exact Hold | exact Hnew].
Defined.

Lemma station_answers_witness :
  station Config_default upstream_stations "UNKNOWN123" noon =
    (Ok (JDict [("error", JStr "Station not found")], 404), snd (stations_of "UNKNOWN123")) /\
  station Config_default upstream_stations "1029TH" noon =
    (Ok (thames, 200), snd (stations_of "1029TH")).
Proof.
  destruct (station_answers Config_default upstream_stations "UNKNOWN123" noon
              (snd (stations_of "UNKNOWN123"))) as (H404 & _).
  destruct (station_answers Config_default upstream_stations "1029TH" noon
              (snd (stations_of "1029TH"))) as (_ & H200 & _).
  split.
  - apply H404. split; [reflexivity|]. exists [("items", JList [])]. split; reflexivity.
  - apply H200. exists [("items", JList [thames])]. split; [reflexivity|].
    left. exists []. reflexivity.
Defined.


Lemma stations_view_primes_station_witness :
  to_dict by_reference = [("stationReference", "1029TH")] /\
  stations Config_default upstream_stations by_reference noon =
    (Ok (JDict [("items", JList [thames])], 200),
     snd (stations Config_default upstream_stations by_reference noon)) /\
  sent (snd (station Config_default upstream_stations "1029TH"
               (tick 1000000
                  (snd (stations Config_default upstream_stations by_reference noon))))) =
    [(stations_url Config_default, Some by_reference)].
Proof.
  assert (Ha : to_dict by_reference = [("stationReference", "1029TH")]) by reflexivity.
  assert (H : stations Config_default upstream_stations by_reference noon =
              (Ok (JDict [("items", JList [thames])], 200),
               snd (stations Config_default upstream_stations by_reference noon)))
    by reflexivity.
  split; [exact Ha|]. split; [exact H|].
  refine (proj2 (proj2 (proj2 (stations_view_primes_station Config_default
                   upstream_stations "1029TH" by_reference noon _ _ 1000000
                   Ha eq_refl H _)))).
  cbn. lia.
Defined.

End ViewFacts.
